(** * TgMessage: the GitHub-webhook relay and the bot-update endpoint

    A shallow embedding of [functions/githubWebhook.js] and of the
    bot-update handler, with the JavaScript values they inspect, and the
    properties of the specification that concern them. *)

From Stdlib Require Import List NArith ZArith Bool Lia String Ascii.
From Stdlib Require Import DecimalZ DecimalFacts.
Import ListNotations.

Set Implicit Arguments.
Set Warnings "-register-all".

(** ** JavaScript strings

    A JavaScript string is a sequence of UTF-16 code units: [length],
    [substring] and [replace] all count code units. *)

Definition jschar := N.
Definition jsstring := list jschar.

Definition jsstring_eqb (a b : jsstring) : bool :=
  if list_eq_dec N.eq_dec a b then true else false.

(** Source literals are written as they stand in the source file (UTF-8)
    and turned into code units. *)

Fixpoint utf16_of_utf8 (bs : list N) : jsstring :=
  match bs with
  | [] => []
  | b0 :: r0 =>
      if (b0 <? 128)%N then b0 :: utf16_of_utf8 r0
      else if (b0 <? 224)%N then
        match r0 with
        | b1 :: r1 =>
            N.lor (N.shiftl (N.land b0 31) 6) (N.land b1 63) :: utf16_of_utf8 r1
        | [] => [65533%N]
        end
      else if (b0 <? 240)%N then
        match r0 with
        | b1 :: b2 :: r2 =>
            N.lor (N.shiftl (N.land b0 15) 12)
                  (N.lor (N.shiftl (N.land b1 63) 6) (N.land b2 63))
              :: utf16_of_utf8 r2
        | _ => [65533%N]
        end
      else
        match r0 with
        | b1 :: b2 :: b3 :: r3 =>
            let cp := N.lor (N.shiftl (N.land b0 7) 18)
                        (N.lor (N.shiftl (N.land b1 63) 12)
                           (N.lor (N.shiftl (N.land b2 63) 6) (N.land b3 63))) in
            let c := (cp - 65536)%N in
            (55296 + N.shiftr c 10)%N :: (56320 + N.land c 1023)%N
              :: utf16_of_utf8 r3
        | _ => [65533%N]
        end
  end.

Definition lit (s : string) : jsstring :=
  utf16_of_utf8 (map N_of_ascii (list_ascii_of_string s)).

Definition dquote : jsstring := [34%N].
Definition nl : jsstring := [10%N].

(** ** The engine

    What the JavaScript engine supplies and the sources only use: IEEE
    numbers (the handlers never compute with them), and the exceptions
    it raises. *)

Class Engine := {
  (** the Number type *)
  number : Type;
  (** [+0], [-0] and [NaN] *)
  number_is_falsy : number -> bool;
  (** [Number::toString] *)
  number_to_string : number -> jsstring;
  (** thrown values *)
  exn : Type;
  (** the error raised on reading a property of [undefined] or [null] and
      on calling what is not a function *)
  TypeError : exn;
  (** the text of [`${e.message}`] *)
  exn_message : exn -> jsstring
}.

Section Values.
Context {E : Engine}.

(** ** Values: what [JSON.parse] can return, and [undefined] *)

Inductive value :=
| JUndefined
| JNull
| JBool (b : bool)
| JNum (n : number)
| JStr (s : jsstring)
| JArr (items : list value)
| JObj (fields : list (jsstring * value)).

(** ** Exceptions: a computation returns or throws *)

Inductive result (A : Type) :=
| Ok (a : A)
| Throw (e : exn).
Arguments Ok {A} a.
Arguments Throw {A} e.

Definition bind {A B} (r : result A) (k : A -> result B) : result B :=
  match r with
  | Ok a => k a
  | Throw e => Throw e
  end.

#[local] Notation "x <- r ;; k" := (bind r (fun x => k))
  (at level 61, r at next level, right associativity).

(** [ToBoolean] *)
Definition truthy (v : value) : bool :=
  match v with
  | JUndefined | JNull => false
  | JBool b => b
  | JNum n => negb (number_is_falsy n)
  | JStr [] => false
  | JStr (_ :: _) => true
  | JArr _ | JObj _ => true
  end.

Definition nullish (v : value) : bool :=
  match v with
  | JUndefined | JNull => true
  | _ => false
  end.

Definition is_object (v : value) : bool :=
  match v with
  | JObj _ => true
  | _ => false
  end.

(** Own property of an object built by [JSON.parse]. *)
Fixpoint lookup (k : jsstring) (fields : list (jsstring * value)) : value :=
  match fields with
  | [] => JUndefined
  | (k', v) :: rest => if jsstring_eqb k k' then v else lookup k rest
  end.

Fixpoint has_key (k : jsstring) (fields : list (jsstring * value)) : bool :=
  match fields with
  | [] => false
  | (k', _) :: rest => jsstring_eqb k k' || has_key k rest
  end.

(** [v.k], for the property names the sources read ([title], [login],
    [ok], ...): none of them is defined on a built-in prototype, so only
    an object's own properties answer; reading a property of [undefined]
    or [null] throws. *)
Definition get (v : value) (k : string) : result value :=
  match v with
  | JUndefined | JNull => Throw TypeError
  | JObj fields => Ok (lookup (lit k) fields)
  | _ => Ok JUndefined
  end.

(** [v?.k] *)
Definition get_opt (v : value) (k : string) : result value :=
  if nullish v then Ok JUndefined else get v k.

(** [ToString], as a template literal applies it.  An array joins its
    elements with a comma, [undefined] and [null] elements giving the
    empty string; a parsed object has no callable [toString] of its own,
    so it prints through [Object.prototype.toString] unless an own
    [toString] property shadows it, and then the conversion throws. *)
Fixpoint ToString (v : value) : result jsstring :=
  match v with
  | JUndefined => Ok (lit "undefined")
  | JNull => Ok (lit "null")
  | JBool true => Ok (lit "true")
  | JBool false => Ok (lit "false")
  | JNum n => Ok (number_to_string n)
  | JStr s => Ok s
  | JArr items =>
      (fix join (l : list value) : result jsstring :=
         match l with
         | [] => Ok []
         | x :: rest =>
             s <- (if nullish x then Ok [] else ToString x) ;;
             match rest with
             | [] => Ok s
             | _ :: _ => r <- join rest ;; Ok (s ++ lit "," ++ r)
             end
         end) items
  | JObj fields =>
      if has_key (lit "toString") fields then Throw TypeError
      else Ok (lit "[object Object]")
  end.

End Values.

Arguments Ok {E A} a.
Arguments Throw {E A} e.

Notation "x <- r ;; k" := (bind r (fun x => k))
  (at level 61, r at next level, right associativity).

(** ** Message formatters ([functions/githubWebhook.js]) *)

Section Formatters.
Context {E : Engine}.

(** [v === 'literal'] *)
Definition is_str (v : value) (s : string) : bool :=
  match v with
  | JStr t => jsstring_eqb t (lit s)
  | _ => false
  end.

Fixpoint starts_with (pat s : jsstring) : bool :=
  match pat, s with
  | [], _ => true
  | p :: pat', c :: s' => N.eqb p c && starts_with pat' s'
  | _ :: _, [] => false
  end.

(** [s.replace(pat, rep)] with a string pattern and a replacement free of
    [$]: the first occurrence of [pat] in [s], wherever it lies, is
    replaced. *)
Fixpoint replace (pat rep s : jsstring) : jsstring :=
  if starts_with pat s then rep ++ skipn (List.length pat) s
  else match s with
       | [] => []
       | c :: s' => c :: replace pat rep s'
       end.

(** [v.replace(pat, rep)]: only a string has the method. *)
Definition call_replace (v : value) (pat rep : jsstring) : result jsstring :=
  match v with
  | JStr s => Ok (replace pat rep s)
  | _ => Throw TypeError
  end.

(** [s.substring(0, n)] *)
Definition substring0 (n : nat) (s : jsstring) : jsstring := firstn n s.

(** [`${m.substring(0, 100)}${m.length > 100 ? '...' : ''}`]: only a
    string has [substring]. *)
Definition commitExcerpt (commitMessage : value) : result jsstring :=
  match commitMessage with
  | JStr m =>
      Ok (substring0 100 m ++ (if Nat.ltb 100 (List.length m) then lit "..." else []))
  | _ => Throw TypeError
  end.

(** The [switch (action)] of [formatPullRequestMessage]. *)
Definition prActionText (action pull_request : value) : result jsstring :=
  if is_str action "opened" then Ok (lit "创建了新的")
  else if is_str action "closed" then
    merged <- get pull_request "merged" ;;
    Ok (if truthy merged then lit "合并了" else lit "关闭了")
  else if is_str action "reopened" then Ok (lit "重新打开了")
  else if is_str action "edited" then Ok (lit "编辑了")
  else a <- ToString action ;; Ok (lit "更新了(" ++ a ++ lit ")").

(** The template literal that [formatPullRequestMessage] returns. *)
Definition prTemplate (htmlUrl repoName number senderLogin actionText title : jsstring)
    : jsstring :=
  lit "<b>GitHub PR通知</b>" ++ nl ++ nl ++
  lit "<a href=" ++ dquote ++ htmlUrl ++ dquote ++ lit ">" ++
  repoName ++ lit " #" ++ number ++ lit "</a>" ++ nl ++
  senderLogin ++ lit " " ++ actionText ++ lit " Pull Request: " ++ title.

Definition formatPullRequestMessage (data : value) : result jsstring :=
  action <- get data "action" ;;
  pull_request <- get data "pull_request" ;;
  repository <- get data "repository" ;;
  sender <- get data "sender" ;;
  if negb (truthy pull_request) || negb (truthy repository) then Ok []
  else
    title <- get pull_request "title" ;;
    number <- get pull_request "number" ;;
    htmlUrl <- get pull_request "html_url" ;;
    repoName <- get repository "full_name" ;;
    senderLogin <- get sender "login" ;;
    actionText <- prActionText action pull_request ;;
    s_htmlUrl <- ToString htmlUrl ;;
    s_repoName <- ToString repoName ;;
    s_number <- ToString number ;;
    s_senderLogin <- ToString senderLogin ;;
    s_title <- ToString title ;;
    Ok (prTemplate s_htmlUrl s_repoName s_number s_senderLogin actionText s_title).

(** The template literal that [formatPushMessage] returns, up to the
    commit excerpt. *)
Definition pushTemplate (repoUrl repoName senderLogin branch excerpt : jsstring)
    : jsstring :=
  lit "<b>GitHub Push通知</b>" ++ nl ++ nl ++
  lit "<a href=" ++ dquote ++ repoUrl ++ dquote ++ lit ">" ++
  repoName ++ lit "</a>" ++ nl ++
  senderLogin ++ lit " 推送到 " ++ branch ++ lit " 分支" ++ nl ++
  lit "提交: " ++ excerpt.

Definition formatPushMessage (data : value) : result jsstring :=
  ref <- get data "ref" ;;
  repository <- get data "repository" ;;
  pushes <- get data "pushes" ;;
  sender <- get data "sender" ;;
  head_commit <- get data "head_commit" ;;
  if negb (truthy repository) || negb (truthy head_commit) then Ok []
  else
    repoName <- get repository "full_name" ;;
    branch <- call_replace ref (lit "refs/heads/") [] ;;
    senderLogin <- get sender "login" ;;
    commitMessage <- get head_commit "message" ;;
    commitUrl <- get head_commit "url" ;;
    repoUrl <- get repository "html_url" ;;
    s_repoUrl <- ToString repoUrl ;;
    s_repoName <- ToString repoName ;;
    s_senderLogin <- ToString senderLogin ;;
    excerpt <- commitExcerpt commitMessage ;;
    Ok (pushTemplate s_repoUrl s_repoName s_senderLogin branch excerpt).

(** The [switch (action)] of [formatIssuesMessage]. *)
Definition issueActionText (action : value) : result jsstring :=
  if is_str action "opened" then Ok (lit "创建了新的")
  else if is_str action "closed" then Ok (lit "关闭了")
  else if is_str action "reopened" then Ok (lit "重新打开了")
  else if is_str action "edited" then Ok (lit "编辑了")
  else a <- ToString action ;; Ok (lit "更新了(" ++ a ++ lit ")").

Definition formatIssuesMessage (data : value) : result jsstring :=
  action <- get data "action" ;;
  issue <- get data "issue" ;;
  repository <- get data "repository" ;;
  sender <- get data "sender" ;;
  if negb (truthy issue) || negb (truthy repository) then Ok []
  else
    title <- get issue "title" ;;
    number <- get issue "number" ;;
    htmlUrl <- get issue "html_url" ;;
    repoName <- get repository "full_name" ;;
    senderLogin <- get sender "login" ;;
    actionText <- issueActionText action ;;
    s_htmlUrl <- ToString htmlUrl ;;
    s_repoName <- ToString repoName ;;
    s_number <- ToString number ;;
    s_senderLogin <- ToString senderLogin ;;
    s_title <- ToString title ;;
    Ok (lit "<b>GitHub Issue通知</b>" ++ nl ++ nl ++
        lit "<a href=" ++ dquote ++ s_htmlUrl ++ dquote ++ lit ">" ++
        s_repoName ++ lit " #" ++ s_number ++ lit "</a>" ++ nl ++
        s_senderLogin ++ lit " " ++ actionText ++ lit " Issue: " ++ s_title).

(** The [switch (action)] of [formatReleaseMessage]. *)
Definition releaseActionText (action : value) : result jsstring :=
  if is_str action "published" then Ok (lit "发布了新的")
  else a <- ToString action ;; Ok (lit "更新了(" ++ a ++ lit ")").

Definition formatReleaseMessage (data : value) : result jsstring :=
  action <- get data "action" ;;
  release <- get data "release" ;;
  repository <- get data "repository" ;;
  sender <- get data "sender" ;;
  if negb (truthy release) || negb (truthy repository) then Ok []
  else
    tagName <- get release "tag_name" ;;
    name0 <- get release "name" ;;
    let name := if truthy name0 then name0 else tagName in
    htmlUrl <- get release "html_url" ;;
    repoName <- get repository "full_name" ;;
    senderLogin <- get sender "login" ;;
    actionText <- releaseActionText action ;;
    s_htmlUrl <- ToString htmlUrl ;;
    s_repoName <- ToString repoName ;;
    s_senderLogin <- ToString senderLogin ;;
    s_name <- ToString name ;;
    Ok (lit "<b>GitHub Release通知</b>" ++ nl ++ nl ++
        lit "<a href=" ++ dquote ++ s_htmlUrl ++ dquote ++ lit ">" ++
        s_repoName ++ lit "</a>" ++ nl ++
        s_senderLogin ++ lit " " ++ actionText ++ lit " Release: " ++ s_name).

(** The template literal that [formatIssuesMessage] returns. *)
Definition issueTemplate (htmlUrl repoName number senderLogin actionText title : jsstring)
    : jsstring :=
  lit "<b>GitHub Issue通知</b>" ++ nl ++ nl ++
  lit "<a href=" ++ dquote ++ htmlUrl ++ dquote ++ lit ">" ++
  repoName ++ lit " #" ++ number ++ lit "</a>" ++ nl ++
  senderLogin ++ lit " " ++ actionText ++ lit " Issue: " ++ title.

(** The template literal that [formatReleaseMessage] returns. *)
Definition releaseTemplate (htmlUrl repoName senderLogin actionText name : jsstring)
    : jsstring :=
  lit "<b>GitHub Release通知</b>" ++ nl ++ nl ++
  lit "<a href=" ++ dquote ++ htmlUrl ++ dquote ++ lit ">" ++
  repoName ++ lit "</a>" ++ nl ++
  senderLogin ++ lit " " ++ actionText ++ lit " Release: " ++ name.

End Formatters.

(** ** Requests, responses and the collaborators of the handlers *)

Section Http.
Context {E : Engine}.

(** [context.env]: each variable is unset or a string. *)
Record Env := {
  github_webhook_secret : option jsstring;
  default_chat_id : option jsstring;
  token : option jsstring;
  sign_key : option jsstring
}.

(** What the handlers read of [context.request]: the method, the two
    headers as [request.headers.get] returns them ([None] is [null]),
    the body as [request.text()] returns it and
    [url.searchParams.get('token')]. *)
Record Request := {
  method : jsstring;
  header_event : option jsstring;
  header_signature : option jsstring;
  body_text : jsstring;
  query_token : option jsstring
}.

(** The same request with another [token] query parameter. *)
Definition with_token (t : option jsstring) (request : Request) : Request :=
  {| method := method request;
     header_event := header_event request;
     header_signature := header_signature request;
     body_text := body_text request;
     query_token := t |}.

(** An unset variable or a missing header, as a value. *)
Definition of_option (o : option jsstring) : value :=
  match o with
  | Some s => JStr s
  | None => JNull
  end.

(** The body handed to [new Response]: plain text, or
    [JSON.stringify({ code, message })]. *)
Inductive payload :=
| Text (s : jsstring)
| Json (code : Z) (message : value).

Record Response := {
  status : Z;
  body : payload
}.

Definition json (code : Z) (message : value) : Response :=
  {| status := code; body := Json code message |}.

(** The argument of [bot.sendMessage]. *)
Record SendArgs := {
  text : jsstring;
  chat_id : value;
  parse_mode : option jsstring
}.

(** What a handler does: the calls of [bot.sendMessage] it made, in
    order, and the response it returns. *)
Definition outcome := (Response * list SendArgs)%type.

(** [JSON.parse] (and [request.json()], which parses the same body) and
    the [crypto] module's [createHmac('sha256', key).update(body).digest('hex')]. *)
Class Runtime := {
  JSON_parse : jsstring -> result value;
  hmac_sha256_hex : jsstring -> jsstring -> jsstring
}.

(** [bot.js] (class [Bot], built from [env]):
    [f env x] stands for [new Bot(env).f(x)]. *)
Class Bot := {
  encryption : Env -> value -> result value;
  decryption : Env -> jsstring -> result value;
  sendMessage : Env -> SendArgs -> result value
}.

End Http.




(** ** [functions/githubWebhook.js]: [onRequest] *)

Module GithubWebhook.
Section Handler.
Context {E : Engine} {R : Runtime} {B : Bot}.

(** The signature step: skipped, or performed with its verdict. *)
Inductive verification :=
| Skipped
| Verified (matches : bool).

(** [digest]: ['sha256=' + hmac.update(body).digest('hex')] *)
Definition digest (secret body : jsstring) : jsstring :=
  lit "sha256=" ++ hmac_sha256_hex secret body.

Definition verifySignature (env : Env) (request : Request) : verification :=
  match github_webhook_secret env, header_signature request with
  | Some secret, Some signature =>
      if truthy (JStr secret) && truthy (JStr signature) then
        Verified (jsstring_eqb signature (digest secret (body_text request)))
      else Skipped
  | _, _ => Skipped
  end.

(** The chat target: the configured default, else the decoded [token]
    parameter; a decoding that throws is logged and leaves [null]. *)
Definition resolveChatId (env : Env) (request : Request) : value :=
  let chatId :=
    if truthy (of_option (default_chat_id env))
    then of_option (default_chat_id env) else JNull in
  if negb (truthy chatId) then
    match query_token request with
    | Some t =>
        if truthy (JStr t) then
          match decryption env t with
          | Ok v => v
          | Throw _ => chatId
          end
        else chatId
    | None => chatId
    end
  else chatId.

(** The [switch (eventType)]. *)
Definition formatMessage (eventType : jsstring) (data : value) : result jsstring :=
  if jsstring_eqb eventType (lit "pull_request") then formatPullRequestMessage data
  else if jsstring_eqb eventType (lit "push") then formatPushMessage data
  else if jsstring_eqb eventType (lit "issues") then formatIssuesMessage data
  else if jsstring_eqb eventType (lit "release") then formatReleaseMessage data
  else Ok (lit "收到GitHub事件: " ++ eventType).

Definition serverError : Response := json 500 (JStr (lit "Server error")).

(** [if (message) { ... sendMessage ... } else { ... }] *)
Definition deliver (env : Env) (message : jsstring) (chatId : value) : outcome :=
  match message with
  | [] => (json 200 (JStr (lit "No message to send")), [])
  | _ :: _ =>
      let args := {| text := message; chat_id := chatId;
                     parse_mode := Some (lit "HTML") |} in
      match sendMessage env args with
      | Throw _ => (serverError, [args])
      | Ok ret =>
          match get ret "ok" with
          | Throw _ => (serverError, [args])
          | Ok ok =>
              if truthy ok then
                (json 200 (JStr (lit "Notification sent successfully")), [args])
              else
                match get ret "description" with
                | Throw _ => (serverError, [args])
                | Ok description => (json 422 description, [args])
                end
          end
      end
  end.

Definition onRequest (env : Env) (request : Request) : outcome :=
  if negb (jsstring_eqb (method request) (lit "POST")) then
    (json 405 (JStr (lit "Please use POST method")), [])
  else if negb (truthy (of_option (header_event request))) then
    (json 400 (JStr (lit "Missing X-GitHub-Event header")), [])
  else
    let eventType := match header_event request with Some t => t | None => [] end in
    match verifySignature env request with
    | Verified false => (json 401 (JStr (lit "Invalid signature")), [])
    | _ =>
        match JSON_parse (body_text request) with
        | Throw _ => (serverError, [])
        | Ok data =>
            let chatId := resolveChatId env request in
            if negb (truthy chatId) then
              (json 422 (JStr (lit "No valid chat_id provided")), [])
            else
              match formatMessage eventType data with
              | Throw _ => (serverError, [])
              | Ok message => deliver env message chatId
              end
        end
    end.


(** The request got past the method check, the event header, the
    signature step and the parser, with this event type and payload. *)
Definition parsed (env : Env) (request : Request)
    (eventType : jsstring) (data : value) : Prop :=
  method request = lit "POST" /\
  header_event request = Some eventType /\ eventType <> [] /\
  verifySignature env request <> Verified false /\
  JSON_parse (body_text request) = Ok data.

End Handler.
End GithubWebhook.

(** ** The bot-update endpoint: [onRequest] *)

Module BotUpdate.
Section Handler.
Context {E : Engine} {R : Runtime} {B : Bot}.

(** [data.message?.text ?? ''] and [data.message?.chat?.id] *)
Definition readUpdate (data : value) : result (value * value) :=
  m <- get data "message" ;;
  t <- get_opt m "text" ;;
  let message := if nullish t then JStr [] else t in
  chat <- get_opt m "chat" ;;
  chat_id <- get_opt chat "id" ;;
  Ok (message, chat_id).

Definition tokenText (encryptedToken : jsstring) : jsstring :=
  lit "您的专属 Token:" ++ nl ++ nl ++ encryptedToken ++ nl ++ nl ++
  lit "请保存此 Token，用于发送消息通知。".

Definition success : Response := json 200 (JStr (lit "success")).

(** The inner [try { ... } catch (e) { ... }] of the [/token] command. *)
Definition sendToken (env : Env) (chat_id : value) : outcome :=
  let caught (e : exn) (sent : list SendArgs) : outcome :=
    (json 500 (JStr (lit "Error: " ++ exn_message e)), sent) in
  match (encryptedToken <- encryption env chat_id ;;
         _ <- ToString chat_id ;;
         ToString encryptedToken) with
  | Throw e => caught e []
  | Ok s_token =>
      let args := {| text := tokenText s_token; chat_id := chat_id;
                     parse_mode := None |} in
      match sendMessage env args with
      | Throw e => caught e [args]
      | Ok ret =>
          match get ret "ok" with
          | Throw e => caught e [args]
          | Ok ok =>
              if negb (truthy ok) then
                match (d <- get ret "description" ;; ToString d) with
                | Throw e => caught e [args]
                | Ok s_description =>
                    (json 500 (JStr (lit "Failed to send message: " ++ s_description)),
                     [args])
                end
              else (success, [args])
          end
      end
  end.

Definition onRequest (env : Env) (request : Request) : outcome :=
  if negb (jsstring_eqb (method request) (lit "POST")) then
    ({| status := 405; body := Text (lit "Please use POST method") |}, [])
  else
    match (data <- JSON_parse (body_text request) ;; readUpdate data) with
    | Throw e => (json 500 (JStr (lit "Server error: " ++ exn_message e)), [])
    | Ok (message, chat_id) =>
        if negb (truthy chat_id) then
          (json 400 (JStr (lit "No chat_id found")), [])
        else if negb (truthy (of_option (token env))) then
          (json 500 (JStr (lit "Bot token not configured")), [])
        else if is_str message "/token" then sendToken env chat_id
        else (success, [])
    end.

End Handler.
End BotUpdate.

(** ** The token codec ([bot.encryption], [bot.decryption]) *)

Module TokenCodec.

(** Decimal rendering of an integer chat identifier, as code units. *)
Fixpoint chars_of_uint (u : Decimal.uint) : jsstring :=
  match u with
  | Decimal.Nil => []
  | Decimal.D0 u' => 48%N :: chars_of_uint u'
  | Decimal.D1 u' => 49%N :: chars_of_uint u'
  | Decimal.D2 u' => 50%N :: chars_of_uint u'
  | Decimal.D3 u' => 51%N :: chars_of_uint u'
  | Decimal.D4 u' => 52%N :: chars_of_uint u'
  | Decimal.D5 u' => 53%N :: chars_of_uint u'
  | Decimal.D6 u' => 54%N :: chars_of_uint u'
  | Decimal.D7 u' => 55%N :: chars_of_uint u'
  | Decimal.D8 u' => 56%N :: chars_of_uint u'
  | Decimal.D9 u' => 57%N :: chars_of_uint u'
  end.

Definition is_digit (c : jschar) : Prop := (48 <= c <= 57)%N.

Definition chars_of_int (i : Decimal.signed_int) : jsstring :=
  match i with
  | Decimal.Pos u => chars_of_uint u
  | Decimal.Neg u => 45%N :: chars_of_uint u
  end.

Definition digit_of_char (c : jschar) : option (Decimal.uint -> Decimal.uint) :=
  if (c =? 48)%N then Some Decimal.D0
  else if (c =? 49)%N then Some Decimal.D1
  else if (c =? 50)%N then Some Decimal.D2
  else if (c =? 51)%N then Some Decimal.D3
  else if (c =? 52)%N then Some Decimal.D4
  else if (c =? 53)%N then Some Decimal.D5
  else if (c =? 54)%N then Some Decimal.D6
  else if (c =? 55)%N then Some Decimal.D7
  else if (c =? 56)%N then Some Decimal.D8
  else if (c =? 57)%N then Some Decimal.D9
  else None.

Fixpoint uint_of_chars (s : jsstring) : option Decimal.uint :=
  match s with
  | [] => Some Decimal.Nil
  | c :: r =>
      match digit_of_char c, uint_of_chars r with
      | Some d, Some u => Some (d u)
      | _, _ => None
      end
  end.

Definition int_of_chars (s : jsstring) : option Decimal.signed_int :=
  match s with
  | c :: r =>
      if (c =? 45)%N then option_map Decimal.Neg (uint_of_chars r)
      else option_map Decimal.Pos (uint_of_chars s)
  | [] => None
  end.

Definition print (c : Z) : jsstring := chars_of_int (Z.to_int c).

Definition parse (s : jsstring) : option Z := option_map Z.of_int (int_of_chars s).

(** The part of a token before its first separator. *)
Fixpoint payload_of (t : jsstring) : jsstring :=
  match t with
  | [] => []
  | c :: r => if (c =? 46)%N then [] else c :: payload_of r
  end.

(** The result of decoding: an identifier, or the distinct failure. *)
Inductive decoded :=
| Decoded (c : Z)
| AuthError.

Section Codec.
(** The keyed digest of the codec, over URL-safe text: any function of
    the key and the payload. *)
Variable mac : jsstring -> jsstring -> jsstring.

(** Modelled from the spec: [bot.js], which defines [Bot.encryption], is
    not among the sources.  Section 4.1 asks for a deterministic keyed
    authenticated encoding of the integer identifier: the token is the
    identifier in decimal, a separator, and the keyed digest of that
    text. *)
Definition encode (chatId : Z) (key : jsstring) : jsstring :=
  print chatId ++ 46%N :: mac key (print chatId).

(** Modelled from the spec: [bot.js], which defines [Bot.decryption], is
    not among the sources.  Section 4.1 asks the decoder to reject, with
    a distinct failure, every token whose integrity check fails: the
    decoder reads the identifier the token names, recomputes the token of
    that identifier under the key and accepts only an exact match. *)
Definition decode (token : jsstring) (key : jsstring) : decoded :=
  match parse (payload_of token) with
  | Some chatId =>
      if jsstring_eqb token (encode chatId key) then Decoded chatId else AuthError
  | None => AuthError
  end.

End Codec.
End TokenCodec.

(** ** The status and register endpoints *)

Module Admin.

(** [s.includes(pat)] *)
Fixpoint includes (pat s : jsstring) : bool :=
  starts_with pat s ||
  match s with
  | [] => false
  | _ :: s' => includes pat s'
  end.

Section Handlers.
Context {E : Engine}.

(** [context.env] with the shared secret [env.key] of the register
    endpoint. *)
Record AdminEnv := {
  vars : Env;
  key : option jsstring
}.

(** A request with what these handlers read of [new URL(request.url)]:
    the host name and the [key] and [url] query parameters. *)
Record UrlRequest := {
  base : Request;
  hostname : jsstring;
  query_key : option jsstring;
  query_url : option jsstring
}.

(** [bot.js]: [request env m params] stands for
    [new Bot(env).request(m, params)], [setWebHook env u] for
    [new Bot(env).setWebHook({ url: u })]. *)
Class BotApi := {
  request : AdminEnv -> jsstring -> value -> result value;
  setWebHook : AdminEnv -> jsstring -> result value
}.

(** [new Date().toISOString()] *)
Class Clock := {
  now : jsstring
}.

End Handlers.

(** *** The status endpoint: [onRequest] *)

Module Status.
Section Handler.
Context {E : Engine} {A : BotApi} {C : Clock}.

(** The object handed to [JSON.stringify(response, null, 2)]. *)
Record report := {
  environment_token : bool;
  environment_sign_key : bool;
  environment_key : bool;
  report_hostname : jsstring;
  webhookUrl : jsstring;
  webhookInfo : value;
  timestamp : jsstring
}.

Inductive reply :=
| Plain (status : Z) (text : jsstring)
| Pretty (status : Z) (r : report).

Definition reply_status (r : reply) : Z :=
  match r with
  | Plain st _ => st
  | Pretty st _ => st
  end.

(** The reply and the Bot API methods called, in order. *)
Definition onRequest (env : AdminEnv) (req : UrlRequest) : reply * list jsstring :=
  if negb (jsstring_eqb (method (base req)) (lit "GET")) then
    (Plain 405 (lit "Please use GET method"), [])
  else
    let webhookInfo :=
      match request env (lit "getWebhookInfo") (JObj []) with
      | Ok info => info
      | Throw _ => JNull
      end in
    (Pretty 200
       {| environment_token := truthy (of_option (token (vars env)));
          environment_sign_key := truthy (of_option (sign_key (vars env)));
          environment_key := truthy (of_option (key env));
          report_hostname := hostname req;
          webhookUrl := lit "https://" ++ hostname req ++ lit "/api/webhook";
          webhookInfo := webhookInfo;
          timestamp := now |},
     [lit "getWebhookInfo"]).

End Handler.
End Status.

(** *** The register endpoint: [onRequest] *)

Module Register.
Section Handler.
Context {E : Engine} {A : BotApi}.

(** [key === env.key]: [null] (no parameter) and [undefined] (no
    variable) are equal to nothing here. *)
Definition key_matches (env : AdminEnv) (req : UrlRequest) : bool :=
  match query_key req, key env with
  | Some k, Some k' => jsstring_eqb k k'
  | _, _ => false
  end.

Definition isVercel (host : jsstring) : bool :=
  includes (lit "vercel.app") host || includes (lit "vercel.com") host.

Definition webhookPath (host : jsstring) : jsstring :=
  if isVercel host then lit "/api/webhook" else lit "/webhook".

(** [url.searchParams.get('url') || `https://${url.hostname}${webhookPath}`] *)
Definition webhookUrl (req : UrlRequest) : jsstring :=
  if truthy (of_option (query_url req)) then
    match query_url req with
    | Some u => u
    | None => []
    end
  else lit "https://" ++ hostname req ++ webhookPath (hostname req).

(** The response, or the exception the handler lets through, and the
    URLs handed to [bot.setWebHook], in order. *)
Definition onRequest (env : AdminEnv) (req : UrlRequest)
    : result Response * list jsstring :=
  if negb (key_matches env req) then
    (Ok (json 401 (JStr (lit "unauthorized"))), [])
  else
    let url := webhookUrl req in
    match setWebHook env url with
    | Throw e => (Throw e, [url])
    | Ok ret =>
        match get ret "ok" with
        | Throw e => (Throw e, [url])
        | Ok ok =>
            if truthy ok then
              (Ok (json 200 (JStr (lit "Webhook set to " ++ url))), [url])
            else
              match get ret "description" with
              | Throw e => (Throw e, [url])
              | Ok description => (Ok (json 422 description), [url])
              end
        end
    end.

End Handler.
End Register.
End Admin.

(** ** A concrete engine, runtime and bot

    The properties below hold for every engine, runtime and bot; this
    instance runs the handlers on concrete requests. *)

Module Fixture.

Inductive jserror :=
| ErrType
| ErrSyntax
| ErrAuth.

#[export] Instance engine : Engine := {|
  number := Z;
  number_is_falsy := fun n => (n =? 0)%Z;
  number_to_string := TokenCodec.print;
  exn := jserror;
  TypeError := ErrType;
  exn_message := fun e =>
    match e with
    | ErrType => lit "Cannot read properties of undefined"
    | ErrSyntax => lit "Unexpected token"
    | ErrAuth => lit "Malformed token"
    end
|}.

(** A quoted JSON string. *)
Definition q (s : string) : jsstring := dquote ++ lit s ++ dquote.

(** [{}] *)
Definition body_empty : jsstring := lit "{}".

(** [{"pull_request":{},"repository":{}}] *)
Definition body_pr_no_sender : jsstring :=
  lit "{" ++ q "pull_request" ++ lit ":{}," ++ q "repository" ++ lit ":{}}".

(** [{"message":{"text":"/token","chat":{"id":42}}}] *)
Definition body_token_command : jsstring :=
  lit "{" ++ q "message" ++ lit ":{" ++ q "text" ++ lit ":" ++ q "/token" ++
  lit "," ++ q "chat" ++ lit ":{" ++ q "id" ++ lit ":42}}}".

(** [{"message":{"text":"hello","chat":{"id":42}}}] *)
Definition body_other_text : jsstring :=
  lit "{" ++ q "message" ++ lit ":{" ++ q "text" ++ lit ":" ++ q "hello" ++
  lit "," ++ q "chat" ++ lit ":{" ++ q "id" ++ lit ":42}}}".

Definition update (t : string) : value :=
  JObj [(lit "message",
         JObj [(lit "text", JStr (lit t));
               (lit "chat", JObj [(lit "id", JNum 42%Z)])])].

(** The documents this parser knows, with the values [JSON.parse] gives
    for them; any other text is a syntax error. *)
Definition documents : list (jsstring * value) :=
  [ (body_empty, JObj []);
    (body_pr_no_sender,
     JObj [(lit "pull_request", JObj []); (lit "repository", JObj [])]);
    (body_token_command, update "/token");
    (body_other_text, update "hello") ].

Fixpoint parse_known (docs : list (jsstring * value)) (s : jsstring) : result value :=
  match docs with
  | [] => Throw ErrSyntax
  | (d, v) :: rest => if jsstring_eqb s d then Ok v else parse_known rest s
  end.

(** A stand-in for the keyed digest: the sum of the code units of the key
    and the text, in decimal. *)
Definition checksum (key data : jsstring) : jsstring :=
  TokenCodec.print (Z.of_N (fold_left N.add (key ++ data) 0%N)).

#[export] Instance runtime : Runtime := {|
  JSON_parse := parse_known documents;
  hmac_sha256_hex := checksum
|}.

Definition encrypt (env : Env) (chat_id : value) : result value :=
  match chat_id, sign_key env with
  | JNum c, Some key => Ok (JStr (TokenCodec.encode checksum c key))
  | _, _ => Throw ErrType
  end.

Definition decrypt (env : Env) (t : jsstring) : result value :=
  match sign_key env with
  | Some key =>
      match TokenCodec.decode checksum t key with
      | TokenCodec.Decoded c => Ok (JNum c)
      | TokenCodec.AuthError => Throw ErrAuth
      end
  | None => Throw ErrType
  end.

(** A bot whose messages the chat platform accepts. *)
Definition bot_accepted : Bot := {|
  encryption := encrypt;
  decryption := decrypt;
  sendMessage := fun _ _ => Ok (JObj [(lit "ok", JBool true)])
|}.

(** A bot whose messages the chat platform refuses with [ok: false]. *)
Definition bot_refused : Bot := {|
  encryption := encrypt;
  decryption := decrypt;
  sendMessage := fun _ _ =>
    Ok (JObj [(lit "ok", JBool false);
              (lit "description", JStr (lit "Forbidden: bot was blocked by the user"))])
|}.

(** No default chat, no webhook secret. *)
Definition env_plain : Env := {|
  github_webhook_secret := None;
  default_chat_id := None;
  token := Some (lit "123456:bot-token");
  sign_key := Some (lit "k3y")
|}.

(** A default chat and a webhook secret. *)
Definition env_default : Env := {|
  github_webhook_secret := Some (lit "s3cret");
  default_chat_id := Some (lit "1001");
  token := Some (lit "123456:bot-token");
  sign_key := Some (lit "k3y")
|}.

Definition post (event : string) (signature : option jsstring)
    (text : jsstring) (tok : option jsstring) : Request := {|
  method := lit "POST";
  header_event := Some (lit event);
  header_signature := signature;
  body_text := text;
  query_token := tok
|}.

(** A chat-platform update posted to the bot-update endpoint. *)
Definition post_update (text : jsstring) : Request := {|
  method := lit "POST";
  header_event := None;
  header_signature := None;
  body_text := text;
  query_token := None
|}.

Definition commit_object (message : jsstring) : value :=
  JObj [(lit "message", JStr message); (lit "url", JStr (lit "c"))].

(** [{ref, repository: {full_name: "a/b", html_url: "u"},
      sender: {login: "alice"}, head_commit: {message, url: "c"}}] *)
Definition push_payload (ref message : jsstring) : value :=
  JObj [(lit "ref", JStr ref);
        (lit "repository",
         JObj [(lit "full_name", JStr (lit "a/b")); (lit "html_url", JStr (lit "u"))]);
        (lit "sender", JObj [(lit "login", JStr (lit "alice"))]);
        (lit "head_commit", commit_object message)].

(** [{action, issue: {title: "T", number: 7, html_url: "h"},
      repository: {full_name: "a/b"}, sender: {login: "bob"}}] *)
Definition issue_object : value :=
  JObj [(lit "title", JStr (lit "T")); (lit "number", JNum 7%Z);
        (lit "html_url", JStr (lit "h"))].

Definition issue_payload (action : jsstring) : value :=
  JObj [(lit "action", JStr action);
        (lit "issue", issue_object);
        (lit "repository", JObj [(lit "full_name", JStr (lit "a/b"))]);
        (lit "sender", JObj [(lit "login", JStr (lit "bob"))])].

(** [{action, release: {tag_name: "v1", name, html_url: "h"},
      repository: {full_name: "a/b"}, sender: {login: "bob"}}] *)
Definition release_object (name : value) : value :=
  JObj [(lit "tag_name", JStr (lit "v1")); (lit "name", name);
        (lit "html_url", JStr (lit "h"))].

Definition release_payload (action : jsstring) (name : value) : value :=
  JObj [(lit "action", JStr action);
        (lit "release", release_object name);
        (lit "repository", JObj [(lit "full_name", JStr (lit "a/b"))]);
        (lit "sender", JObj [(lit "login", JStr (lit "bob"))])].

(** [{action, pull_request: {merged, title: "T", number: 7, html_url: "h"},
      repository: {full_name: "a/b"}, sender: {login: "bob"}}] *)
Definition pr_object (merged : bool) : value :=
  JObj [(lit "merged", JBool merged); (lit "title", JStr (lit "T"));
        (lit "number", JNum 7%Z); (lit "html_url", JStr (lit "h"))].

Definition pr_payload (action : jsstring) (merged : bool) : value :=
  JObj [(lit "action", JStr action);
        (lit "pull_request", pr_object merged);
        (lit "repository", JObj [(lit "full_name", JStr (lit "a/b"))]);
        (lit "sender", JObj [(lit "login", JStr (lit "bob"))])].




(** The Bot API of the chat platform, reachable or not. *)
Definition api_up : Admin.BotApi := {|
  Admin.request := fun _ _ _ => Ok (JObj [(lit "url", JStr (lit "https://relay.example/webhook"))]);
  Admin.setWebHook := fun _ _ => Ok (JObj [(lit "ok", JBool true)])
|}.

Definition api_down : Admin.BotApi := {|
  Admin.request := fun _ _ _ => Throw ErrType;
  Admin.setWebHook := fun _ _ =>
    Ok (JObj [(lit "ok", JBool false); (lit "description", JStr (lit "Unauthorized"))])
|}.

Definition clock : Admin.Clock := {| Admin.now := lit "2024-01-01T00:00:00.000Z" |}.

Definition admin_env (k : option jsstring) : Admin.AdminEnv :=
  {| Admin.vars := env_plain; Admin.key := k |}.

Definition url_request (m : string) (host : string)
    (k u : option jsstring) : Admin.UrlRequest := {|
  Admin.base := {| method := lit m; header_event := None; header_signature := None;
                   body_text := []; query_token := None |};
  Admin.hostname := lit host;
  Admin.query_key := k;
  Admin.query_url := u
|}.

End Fixture.

(** * Properties *)

Import Fixture.

Arguments lit : simpl never.

Lemma jsstring_eqb_eq (a b : jsstring) : jsstring_eqb a b = true <-> a = b.
Proof.
  unfold jsstring_eqb. destruct (list_eq_dec N.eq_dec a b); split; congruence.
Qed.

Lemma jsstring_eqb_refl (a : jsstring) : jsstring_eqb a a = true.
Proof. now apply jsstring_eqb_eq. Qed.

Lemma jsstring_eqb_neq (a b : jsstring) : jsstring_eqb a b = false <-> a <> b.
Proof.
  unfold jsstring_eqb. destruct (list_eq_dec N.eq_dec a b); split; congruence.
Qed.

Example lit_ascii : lit "a/b" = [97; 47; 98]%N.
Proof. reflexivity. Qed.

Example lit_merged : lit "合并了" = [21512; 24182; 20102]%N.
Proof. reflexivity. Qed.

(** Invert a chain of [x <- r ;; k] that returned. *)
Ltac bind_inv H :=
  repeat match type of H with
         | bind ?r _ = Ok _ =>
             let e := fresh "E" in
             destruct r eqn:e; cbn [bind] in H; [| discriminate H]
         end.

Section ValueFacts.
Context {E : Engine}.

Lemma is_str_eq (v : value) (s : string) : is_str v s = true <-> v = JStr (lit s).
Proof.
  destruct v; simpl; try (split; [discriminate | congruence]).
  rewrite jsstring_eqb_eq. split; congruence.
Qed.

Lemma is_str_lit (s : string) : is_str (JStr (lit s)) s = true.
Proof. now apply is_str_eq. Qed.

Lemma is_str_other (t : jsstring) (s : string) :
  t <> lit s -> is_str (JStr t) s = false.
Proof. intros H. simpl. now apply jsstring_eqb_neq. Qed.

Lemma truthy_not_nullish (v : value) : truthy v = true -> nullish v = false.
Proof. destruct v; simpl; congruence. Qed.

Lemma get_not_nullish (v : value) (k : string) :
  nullish v = false -> exists w, get v k = Ok w.
Proof. destruct v; simpl; try discriminate; eauto. Qed.

(** Once one property of [v] was read, every property can be read. *)
Lemma get_ok_all (v w : value) (k k' : string) :
  get v k = Ok w -> exists w', get v k' = Ok w'.
Proof. destruct v; simpl; try discriminate; eauto. Qed.

Lemma get_undefined_throws (k : string) : get JUndefined k = Throw TypeError.
Proof. reflexivity. Qed.

End ValueFacts.

(** ** Pull-request messages *)

Section PullRequest.
Context {E : Engine}.

Lemma prActionText_cases (action pr : value) (verb : jsstring) :
  prActionText action pr = Ok verb ->
  (action = JStr (lit "opened") -> verb = lit "创建了新的") /\
  (action = JStr (lit "closed") ->
     exists merged, get pr "merged" = Ok merged /\
       verb = if truthy merged then lit "合并了" else lit "关闭了") /\
  (action = JStr (lit "reopened") -> verb = lit "重新打开了") /\
  (action = JStr (lit "edited") -> verb = lit "编辑了") /\
  (forall s, action = JStr s ->
     s <> lit "opened" -> s <> lit "closed" ->
     s <> lit "reopened" -> s <> lit "edited" ->
     verb = lit "更新了(" ++ s ++ lit ")").
Proof.
  intros H. unfold prActionText in H.
  repeat split.
  - intros ->. rewrite is_str_lit in H. congruence.
  - intros ->. change (is_str (JStr (lit "closed")) "opened") with false in H.
    rewrite is_str_lit in H. bind_inv H. exists a. split; congruence.
  - intros ->. change (is_str (JStr (lit "reopened")) "opened") with false in H.
    change (is_str (JStr (lit "reopened")) "closed") with false in H.
    rewrite is_str_lit in H. congruence.
  - intros ->. change (is_str (JStr (lit "edited")) "opened") with false in H.
    change (is_str (JStr (lit "edited")) "closed") with false in H.
    change (is_str (JStr (lit "edited")) "reopened") with false in H.
    rewrite is_str_lit in H. congruence.
  - intros s -> H1 H2 H3 H4.
    rewrite !is_str_other in H by assumption.
    cbn [ToString bind] in H. congruence.
Qed.

Lemma prActionText_fallback (action pr : value) (verb : jsstring) :
  prActionText action pr = Ok verb ->
  is_str action "opened" = false -> is_str action "closed" = false ->
  is_str action "reopened" = false -> is_str action "edited" = false ->
  exists a, ToString action = Ok a /\ verb = lit "更新了(" ++ a ++ lit ")".
Proof.
  intros H H1 H2 H3 H4. unfold prActionText in H.
  rewrite H1, H2, H3, H4 in H. bind_inv H.
  eexists. split; [reflexivity | congruence].
Qed.

(** C5: the message of a pull-request payload is the header line, the
    link line and the line [<sender> <verb> Pull Request: <title>], in
    which the verb is the created verb for [opened], the merged verb for
    [closed] when the pull request's [merged] flag is truthy and the
    closed verb otherwise, the reopened and edited verbs for [reopened]
    and [edited], and for any other action value the updated verb with
    that value, as a template literal prints it, in brackets: an action
    string appears unchanged, a missing action as [undefined]. *)
Theorem pull_request_action_verb :
  forall (data action pr : value) (msg : jsstring),
    get data "action" = Ok action ->
    get data "pull_request" = Ok pr ->
    formatPullRequestMessage data = Ok msg ->
    msg <> [] ->
    exists verb htmlUrl repoName number senderLogin title,
      msg = lit "<b>GitHub PR通知</b>" ++ [10; 10]%N ++
            lit "<a href=" ++ [34]%N ++ htmlUrl ++ [34]%N ++ lit ">" ++
            repoName ++ lit " #" ++ number ++ lit "</a>" ++ [10]%N ++
            senderLogin ++ lit " " ++ verb ++ lit " Pull Request: " ++ title /\
      (v <- get pr "title" ;; ToString v) = Ok title /\
      (v <- get pr "number" ;; ToString v) = Ok number /\
      (action = JStr (lit "opened") -> verb = lit "创建了新的") /\
      (action = JStr (lit "closed") ->
         exists merged, get pr "merged" = Ok merged /\
           verb = if truthy merged then lit "合并了" else lit "关闭了") /\
      (action = JStr (lit "reopened") -> verb = lit "重新打开了") /\
      (action = JStr (lit "edited") -> verb = lit "编辑了") /\
      (forall s, action = JStr s ->
         s <> lit "opened" -> s <> lit "closed" ->
         s <> lit "reopened" -> s <> lit "edited" ->
         verb = lit "更新了(" ++ s ++ lit ")") /\
      (action <> JStr (lit "opened") -> action <> JStr (lit "closed") ->
       action <> JStr (lit "reopened") -> action <> JStr (lit "edited") ->
         exists a, ToString action = Ok a /\
                   verb = lit "更新了(" ++ a ++ lit ")") /\
      (action = JUndefined -> verb = lit "更新了(undefined)").
Proof.
  intros data action pr msg Ha Hp H Hne.
  unfold formatPullRequestMessage in H.
  rewrite Ha, Hp in H. cbn [bind] in H.
  bind_inv H.
  destruct (negb (truthy pr) || negb (truthy a)).
  - congruence.
  - bind_inv H.
    match goal with
    | Hv : prActionText action pr = Ok ?verb,
      Hx : Ok (prTemplate ?h ?r ?n ?l ?verb ?t) = Ok msg |- _ =>
        exists verb, h, r, n, l, t;
        split; [injection Hx as <-; unfold prTemplate, nl, dquote; cbn [app];
                reflexivity |];
        split; [cbn [bind]; eassumption |];
        split; [cbn [bind]; eassumption |];
        destruct (prActionText_cases _ _ Hv) as (C1 & C2 & C3 & C4 & C5);
        pose proof (prActionText_fallback _ _ Hv) as C6
    end.
    repeat (split; [assumption |]).
    split.
    + intros N1 N2 N3 N4. apply C6.
      * destruct (is_str action "opened") eqn:Hs; [| reflexivity].
        apply is_str_eq in Hs. contradiction.
      * destruct (is_str action "closed") eqn:Hs; [| reflexivity].
        apply is_str_eq in Hs. contradiction.
      * destruct (is_str action "reopened") eqn:Hs; [| reflexivity].
        apply is_str_eq in Hs. contradiction.
      * destruct (is_str action "edited") eqn:Hs; [| reflexivity].
        apply is_str_eq in Hs. contradiction.
    + intros ->. destruct C6 as (shown & Hts & ->); try reflexivity.
      injection Hts as <-. reflexivity.
Qed.

End PullRequest.

(** The pull-request scenario of the specification: [closed] with the
    merged flag set uses the merged verb. *)
Example pull_request_scenario :
  formatPullRequestMessage (pr_payload (lit "closed") true)
  = Ok (prTemplate (lit "h") (lit "a/b") (lit "7") (lit "bob")
          (lit "合并了") (lit "T")).
Proof. vm_compute. reflexivity. Qed.

Example pull_request_fallback :
  formatPullRequestMessage (pr_payload (lit "zzz") false)
  = Ok (prTemplate (lit "h") (lit "a/b") (lit "7") (lit "bob")
          (lit "更新了(zzz)") (lit "T")).
Proof. vm_compute. reflexivity. Qed.

Lemma pull_request_action_verb_witness :
  exists verb htmlUrl repoName number senderLogin title,
    prTemplate (lit "h") (lit "a/b") (lit "7") (lit "bob") (lit "合并了") (lit "T")
      = lit "<b>GitHub PR通知</b>" ++ [10; 10]%N ++
        lit "<a href=" ++ [34]%N ++ htmlUrl ++ [34]%N ++ lit ">" ++
        repoName ++ lit " #" ++ number ++ lit "</a>" ++ [10]%N ++
        senderLogin ++ lit " " ++ verb ++ lit " Pull Request: " ++ title /\
    title = lit "T" /\
    (exists merged, merged = JBool true /\
       verb = if truthy merged then lit "合并了" else lit "关闭了").
Proof.
  destruct (@pull_request_action_verb engine
              (pr_payload (lit "closed") true)
              (JStr (lit "closed"))
              (pr_object true)
              (prTemplate (lit "h") (lit "a/b") (lit "7") (lit "bob")
                 (lit "合并了") (lit "T"))
              eq_refl eq_refl eq_refl ltac:(discriminate))
    as (verb & h & r & n & s & t & Hmsg & Ht & _ & _ & Hclosed & _).
  exists verb, h, r, n, s, t. split; [exact Hmsg |]. split.
  - vm_compute in Ht. injection Ht as <-. reflexivity.
  - destruct (Hclosed eq_refl) as (merged & Hm & Hv).
    exists merged. split; [vm_compute in Hm; injection Hm as <-; reflexivity | exact Hv].
Defined.

(** ** Push messages *)

Section StringFacts.

Lemma starts_with_app (pat r : jsstring) : starts_with pat (pat ++ r) = true.
Proof.
  induction pat as [| p pat IH]; simpl; [reflexivity |].
  now rewrite N.eqb_refl, IH.
Qed.

Lemma starts_with_inv (pat s : jsstring) :
  starts_with pat s = true -> s = pat ++ skipn (List.length pat) s.
Proof.
  revert s. induction pat as [| p pat IH]; intros s H; simpl in *.
  - reflexivity.
  - destruct s as [| c s]; [discriminate |].
    apply andb_prop in H as [Hc Hs]. apply N.eqb_eq in Hc. subst c.
    f_equal. now apply IH.
Qed.

Lemma replace_unfold (pat rep s : jsstring) :
  replace pat rep s =
  if starts_with pat s then rep ++ skipn (List.length pat) s
  else match s with
       | [] => []
       | c :: s' => c :: replace pat rep s'
       end.
Proof. destruct s; reflexivity. Qed.

(** A leading [pat] is stripped. *)
Lemma replace_prefix (pat r : jsstring) : replace pat [] (pat ++ r) = r.
Proof.
  rewrite replace_unfold, starts_with_app. simpl.
  induction pat as [| p pat IH]; simpl; auto.
Qed.

(** A string in which [pat] does not occur stays as it is. *)
Lemma replace_absent (pat rep s : jsstring) :
  (forall a b, s <> a ++ pat ++ b) -> replace pat rep s = s.
Proof.
  induction s as [| c s IH]; intros H; rewrite replace_unfold.
  - destruct (starts_with pat []) eqn:Hs; [| reflexivity].
    apply starts_with_inv in Hs. exfalso. apply (H [] (skipn (List.length pat) [])).
    exact Hs.
  - destruct (starts_with pat (c :: s)) eqn:Hs.
    + apply starts_with_inv in Hs. exfalso.
      apply (H [] (skipn (List.length pat) (c :: s))). exact Hs.
    + f_equal. apply IH. intros a b Hab. apply (H (c :: a) b).
      simpl. now rewrite Hab.
Qed.

Lemma substring0_short (n : nat) (s : jsstring) :
  List.length s <= n -> substring0 n s = s.
Proof. intros H. unfold substring0. now apply firstn_all2. Qed.

Lemma substring0_long (n : nat) (s : jsstring) :
  n <= List.length s -> List.length (substring0 n s) = n.
Proof. intros H. unfold substring0. now apply firstn_length_le. Qed.

End StringFacts.

Section Push.
Context {E : Engine}.

(** C7: a push message ends with the commit line, [提交: ] followed by the
    first 100 characters (UTF-16 code units, as JavaScript counts them) of
    [head_commit.message] and then by an ellipsis exactly when the message
    is longer than 100; a message of 100 or fewer is shown whole and
    unchanged, with no ellipsis. *)
Theorem push_commit_excerpt :
  forall (data hc : value) (msg : jsstring),
    get data "head_commit" = Ok hc ->
    formatPushMessage data = Ok msg ->
    msg <> [] ->
    exists m repoUrl repoName senderLogin branch,
      let excerpt :=
        firstn 100 m ++ (if Nat.ltb 100 (List.length m) then lit "..." else []) in
      get hc "message" = Ok (JStr m) /\
      msg = lit "<b>GitHub Push通知</b>" ++ [10; 10]%N ++
            lit "<a href=" ++ [34]%N ++ repoUrl ++ [34]%N ++ lit ">" ++
            repoName ++ lit "</a>" ++ [10]%N ++
            senderLogin ++ lit " 推送到 " ++ branch ++ lit " 分支" ++ [10]%N ++
            lit "提交: " ++ excerpt /\
      (List.length m <= 100 -> excerpt = m) /\
      (100 < List.length m ->
         excerpt = firstn 100 m ++ lit "..." /\
         List.length (firstn 100 m) = 100 /\
         exists rest, rest <> [] /\ m = firstn 100 m ++ rest).
Proof.
  intros data hc msg Hh H Hne.
  unfold formatPushMessage in H.
  bind_inv H. injection Hh as ->.
  destruct (negb (truthy _) || negb (truthy hc)); [congruence |].
  bind_inv H.
  match goal with
  | Hx : commitExcerpt ?v = Ok ?x, Hm : get hc "message" = Ok ?v |- _ =>
      destruct v as [| | | | m | |]; try discriminate Hx;
      unfold commitExcerpt, substring0 in Hx;
      assert (Hex : x = firstn 100 m ++
                (if Nat.ltb 100 (List.length m) then lit "..." else []))
        by congruence;
      exists m
  end.
  match goal with
  | Hx : Ok (pushTemplate ?u ?r ?l ?b _) = Ok msg |- _ =>
      exists u, r, l, b; cbv zeta;
      split; [reflexivity |];
      split; [rewrite <- Hex; injection Hx as <-; reflexivity |]
  end.
  split.
  - intros Hle. rewrite firstn_all2 by assumption.
    destruct (Nat.ltb_spec 100 (List.length m)); [lia |]. apply List.app_nil_r.
  - intros Hlt. split; [| split].
    + destruct (Nat.ltb_spec 100 (List.length m)); [reflexivity | lia].
    + apply firstn_length_le. lia.
    + exists (skipn 100 m). split.
      * intros Hnil. pose proof (length_skipn 100 m) as Hl.
        rewrite Hnil in Hl. simpl in Hl. lia.
      * symmetry. apply firstn_skipn.
Qed.

End Push.

Lemma push_commit_excerpt_witness :
  exists m,
    m = repeat 97%N 100 ++ repeat 98%N 50 /\
    firstn 100 m ++ (if Nat.ltb 100 (List.length m) then lit "..." else [])
      = repeat 97%N 100 ++ lit "...".
Proof.
  destruct (@push_commit_excerpt engine
              (push_payload (lit "refs/heads/main")
                 (repeat 97%N 100 ++ repeat 98%N 50))
              (commit_object (repeat 97%N 100 ++ repeat 98%N 50))
              (pushTemplate (lit "u") (lit "a/b") (lit "alice") (lit "main")
                 (repeat 97%N 100 ++ lit "..."))
              ltac:(vm_compute; reflexivity)
              ltac:(vm_compute; reflexivity)
              ltac:(vm_compute; discriminate))
    as (m & u & r & s & b & Hm & _ & _ & Hlong).
  exists m.
  assert (Heq : m = repeat 97%N 100 ++ repeat 98%N 50).
  { vm_compute in Hm. injection Hm as <-. reflexivity. }
  split; [exact Heq |].
  destruct Hlong as (Hex & _ & _).
  - rewrite Heq. vm_compute. lia.
  - etransitivity; [exact Hex |]. rewrite Heq. reflexivity.
Defined.

(** The push scenario of the specification: branch [main], sender
    [alice], a 150-unit message cut to 100 and an ellipsis. *)
Example push_scenario :
  formatPushMessage (push_payload (lit "refs/heads/main") (repeat 120%N 150))
  = Ok (pushTemplate (lit "u") (lit "a/b") (lit "alice") (lit "main")
          (repeat 120%N 100 ++ lit "...")).
Proof. vm_compute. reflexivity. Qed.

(** A message of exactly 100 units is shown as it is. *)
Example push_exactly_100 :
  formatPushMessage (push_payload (lit "refs/heads/main") (repeat 120%N 100))
  = Ok (pushTemplate (lit "u") (lit "a/b") (lit "alice") (lit "main")
          (repeat 120%N 100)).
Proof. vm_compute. reflexivity. Qed.

Section Branch.
Context {E : Engine}.

(** A ref that starts with [refs/heads/] loses that prefix. *)
Lemma push_branch_prefix_stripped (b : jsstring) :
  call_replace (JStr (lit "refs/heads/" ++ b)) (lit "refs/heads/") [] = Ok b.
Proof. unfold call_replace. now rewrite replace_prefix. Qed.

(** A ref in which [refs/heads/] does not occur is left as it is. *)
Lemma push_branch_no_occurrence (ref : jsstring) :
  (forall a b, ref <> a ++ lit "refs/heads/" ++ b) ->
  call_replace (JStr ref) (lit "refs/heads/") [] = Ok ref.
Proof. intros H. unfold call_replace. now rewrite replace_absent. Qed.

End Branch.

(** C6: the branch of a push message is the ref with the first occurrence
    of [refs/heads/] removed, wherever it lies.  The ref
    [refs/tags/refs/heads/x] does not start with the prefix, and the
    message shows [refs/tags/x] instead of the ref unchanged. *)
Theorem push_branch_inner_occurrence :
  starts_with (lit "refs/heads/") (lit "refs/tags/refs/heads/x") = false /\
  formatPushMessage (push_payload (lit "refs/tags/refs/heads/x") (lit "fix"))
  = Ok (pushTemplate (lit "u") (lit "a/b") (lit "alice")
          (lit "refs/tags/x") (lit "fix")) /\
  lit "refs/tags/x" <> lit "refs/tags/refs/heads/x".
Proof.
  split; [vm_compute; reflexivity |].
  split; [vm_compute; reflexivity |].
  vm_compute. discriminate.
Qed.

(** ** The webhook handler *)

Section Webhook.
Context {E : Engine} {R : Runtime} {B : Bot}.
Import GithubWebhook.

Lemma truthy_of_option (o : option jsstring) :
  truthy (of_option o) = true <-> exists s, o = Some s /\ s <> [].
Proof.
  destruct o as [[| c s] |]; simpl; split;
    try discriminate; try (intros (s' & Hs & Hne); congruence).
  intros _. exists (c :: s). split; [reflexivity | discriminate].
Qed.

(** What the handler does once the request is parsed. *)
Lemma onRequest_parsed (env : Env) (request : Request)
    (eventType : jsstring) (data : value) :
  parsed env request eventType data ->
  onRequest env request =
    if negb (truthy (resolveChatId env request)) then
      (json 422 (JStr (lit "No valid chat_id provided")), [])
    else
      match formatMessage eventType data with
      | Throw _ => (serverError, [])
      | Ok message => deliver env message (resolveChatId env request)
      end.
Proof.
  intros (Hm & Hev & Hne & Hsig & Hparse).
  unfold onRequest.
  rewrite Hm, jsstring_eqb_refl. cbn [negb].
  assert (Ht : truthy (of_option (header_event request)) = true).
  { apply truthy_of_option. eauto. }
  rewrite Ht. cbn [negb]. rewrite Hev, Hparse.
  destruct (verifySignature env request) as [| [|]]; try reflexivity.
  now contradiction Hsig.
Qed.

(** The handler sends at most the one message it formatted. *)
Lemma deliver_empty (env : Env) (chatId : value) :
  deliver env [] chatId = (json 200 (JStr (lit "No message to send")), []).
Proof. reflexivity. Qed.

End Webhook.

Section WebhookRouting.
Context {E : Engine} {R : Runtime} {B : Bot}.
Import GithubWebhook.

Lemma resolveChatId_default (env : Env) (request : Request) (d : jsstring) :
  default_chat_id env = Some d -> d <> [] ->
  resolveChatId env request = JStr d.
Proof.
  intros Hd Hne. unfold resolveChatId. rewrite Hd.
  destruct d as [| c d]; [congruence | reflexivity].
Qed.

Lemma resolveChatId_undecodable (env : Env) (request : Request) (t : jsstring) :
  truthy (of_option (default_chat_id env)) = false ->
  query_token request = Some t ->
  (forall v, decryption env t = Ok v -> truthy v = false) ->
  truthy (resolveChatId env request) = false.
Proof.
  intros Hd Ht Hdec. unfold resolveChatId. rewrite Hd, Ht. simpl.
  destruct t as [| c t]; [reflexivity |].
  destruct (decryption env (c :: t)) as [v | e] eqn:Hv; [| reflexivity].
  now apply Hdec.
Qed.

Lemma resolveChatId_no_token (env : Env) (request : Request) :
  truthy (of_option (default_chat_id env)) = false ->
  query_token request = None ->
  truthy (resolveChatId env request) = false.
Proof.
  intros Hd Ht. unfold resolveChatId. rewrite Hd, Ht. reflexivity.
Qed.

Lemma parsed_with_token (env : Env) (request : Request) (t : option jsstring)
    (eventType : jsstring) (data : value) :
  parsed env request eventType data ->
  parsed env (with_token t request) eventType data.
Proof. intros H. exact H. Qed.

(** C3, as the handler has it: a parsed request without a configured
    default chat whose [token] parameter cannot be decoded (the decoder
    throws, or returns a falsy value) is answered 422 with the message
    [No valid chat_id provided], the very answer a request without any
    token gets; nothing is sent. *)
Theorem undecodable_token_rejected_422 :
  forall (env : Env) (request : Request) (eventType : jsstring) (data : value)
         (t : jsstring),
    parsed env request eventType data ->
    truthy (of_option (default_chat_id env)) = false ->
    query_token request = Some t ->
    (forall v, decryption env t = Ok v -> truthy v = false) ->
    onRequest env request
      = (json 422 (JStr (lit "No valid chat_id provided")), []) /\
    onRequest env request = onRequest env (with_token None request).
Proof.
  intros env request eventType data t Hp Hd Ht Hdec.
  assert (H1 : onRequest env request
               = (json 422 (JStr (lit "No valid chat_id provided")), [])).
  { rewrite (onRequest_parsed Hp).
    now rewrite (resolveChatId_undecodable env request Hd Ht Hdec). }
  split; [exact H1 |].
  rewrite H1. symmetry.
  rewrite (onRequest_parsed (parsed_with_token None Hp)).
  now rewrite (resolveChatId_no_token env (with_token None request) Hd eq_refl).
Qed.

End WebhookRouting.

(** C3 as stated fails: with no default chat, the token [bad] is refused by
    the decoder and the request is answered 422, not 401. *)
Lemma undecodable_token_not_401 :
  decrypt env_plain (lit "bad") = Throw ErrAuth /\
  default_chat_id env_plain = None /\
  fst (@GithubWebhook.onRequest engine runtime bot_accepted env_plain
         (post "push" None body_empty (Some (lit "bad"))))
    = json 422 (JStr (lit "No valid chat_id provided")) /\
  status (fst (@GithubWebhook.onRequest engine runtime bot_accepted env_plain
                 (post "push" None body_empty (Some (lit "bad"))))) <> 401%Z.
Proof.
  repeat split; try (vm_compute; reflexivity).
  vm_compute. discriminate.
Qed.

Lemma undecodable_token_rejected_422_witness :
  @GithubWebhook.onRequest engine runtime bot_accepted env_plain
     (post "push" None body_empty (Some (lit "bad")))
    = (json 422 (JStr (lit "No valid chat_id provided")), []).
Proof.
  refine (proj1 (@undecodable_token_rejected_422 engine runtime bot_accepted
                   env_plain (post "push" None body_empty (Some (lit "bad")))
                   (lit "push") (JObj []) (lit "bad") _ eq_refl eq_refl _)).
  - repeat split; try (vm_compute; reflexivity); vm_compute; discriminate.
  - intros v Hv. vm_compute in Hv. discriminate Hv.
Defined.

(** ** Required fields *)

Section RequiredFields.
Context {E : Engine}.

(** Read the properties of a value that is known not to be [undefined] or
    [null]. *)
Ltac read_all v H :=
  repeat match goal with
         | |- context [get v ?k] =>
             let w := fresh "w" in
             let Hw := fresh "Hw" in
             destruct (get_ok_all v _ k H) as [w Hw]; rewrite Hw; cbn [bind]
         end.

Ltac read_truthy v H :=
  repeat match goal with
         | |- context [get v ?k] =>
             let w := fresh "w" in
             let Hw := fresh "Hw" in
             destruct (@get_not_nullish _ v k (@truthy_not_nullish _ v H)) as [w Hw];
             rewrite Hw; cbn [bind]
         end.

Lemma guard_falsy (a b : value) :
  truthy a = false \/ truthy b = false ->
  negb (truthy a) || negb (truthy b) = true.
Proof. intros [-> | ->]; simpl; [reflexivity | apply orb_true_r]. Qed.

Lemma guard_truthy (a b : value) :
  truthy a = true -> truthy b = true ->
  negb (truthy a) || negb (truthy b) = false.
Proof. intros -> ->. reflexivity. Qed.

Lemma formatPullRequestMessage_guard (data pr repo : value) :
  get data "pull_request" = Ok pr -> get data "repository" = Ok repo ->
  truthy pr = false \/ truthy repo = false ->
  formatPullRequestMessage data = Ok [].
Proof.
  intros Hp Hr Hf. unfold formatPullRequestMessage.
  rewrite Hp, Hr. read_all data Hp. now rewrite guard_falsy.
Qed.

Lemma formatPushMessage_guard (data repo hc : value) :
  get data "repository" = Ok repo -> get data "head_commit" = Ok hc ->
  truthy repo = false \/ truthy hc = false ->
  formatPushMessage data = Ok [].
Proof.
  intros Hr Hh Hf. unfold formatPushMessage.
  rewrite Hr, Hh. read_all data Hr. now rewrite guard_falsy.
Qed.

Lemma formatIssuesMessage_guard (data issue repo : value) :
  get data "issue" = Ok issue -> get data "repository" = Ok repo ->
  truthy issue = false \/ truthy repo = false ->
  formatIssuesMessage data = Ok [].
Proof.
  intros Hi Hr Hf. unfold formatIssuesMessage.
  rewrite Hi, Hr. read_all data Hi. now rewrite guard_falsy.
Qed.

Lemma formatReleaseMessage_guard (data release repo : value) :
  get data "release" = Ok release -> get data "repository" = Ok repo ->
  truthy release = false \/ truthy repo = false ->
  formatReleaseMessage data = Ok [].
Proof.
  intros Hl Hr Hf. unfold formatReleaseMessage.
  rewrite Hl, Hr. read_all data Hl. now rewrite guard_falsy.
Qed.

(** A missing property reads as [undefined], and then another one can be
    read too. *)
Lemma missing_either (data : value) (k1 k2 : string) :
  get data k1 = Ok JUndefined \/ get data k2 = Ok JUndefined ->
  exists a b, get data k1 = Ok a /\ get data k2 = Ok b /\
              (truthy a = false \/ truthy b = false).
Proof.
  intros [H | H].
  - destruct (get_ok_all data _ k2 H) as [b Hb].
    exists JUndefined, b. auto.
  - destruct (get_ok_all data _ k1 H) as [a Ha].
    exists a, JUndefined. auto.
Qed.

Lemma formatPullRequestMessage_no_sender (data pr repo : value) :
  get data "pull_request" = Ok pr -> truthy pr = true ->
  get data "repository" = Ok repo -> truthy repo = true ->
  get data "sender" = Ok JUndefined ->
  formatPullRequestMessage data = Throw TypeError.
Proof.
  intros Hp Tp Hr Tr Hs. unfold formatPullRequestMessage.
  rewrite Hp, Hr, Hs. read_all data Hp. rewrite guard_truthy by assumption.
  read_truthy pr Tp. read_truthy repo Tr. reflexivity.
Qed.

Lemma formatIssuesMessage_no_sender (data issue repo : value) :
  get data "issue" = Ok issue -> truthy issue = true ->
  get data "repository" = Ok repo -> truthy repo = true ->
  get data "sender" = Ok JUndefined ->
  formatIssuesMessage data = Throw TypeError.
Proof.
  intros Hi Ti Hr Tr Hs. unfold formatIssuesMessage.
  rewrite Hi, Hr, Hs. read_all data Hi. rewrite guard_truthy by assumption.
  read_truthy issue Ti. read_truthy repo Tr. reflexivity.
Qed.

Lemma formatReleaseMessage_no_sender (data release repo : value) :
  get data "release" = Ok release -> truthy release = true ->
  get data "repository" = Ok repo -> truthy repo = true ->
  get data "sender" = Ok JUndefined ->
  formatReleaseMessage data = Throw TypeError.
Proof.
  intros Hl Tl Hr Tr Hs. unfold formatReleaseMessage.
  rewrite Hl, Hr, Hs. read_all data Hl. rewrite guard_truthy by assumption.
  read_truthy release Tl. read_truthy repo Tr. reflexivity.
Qed.

Lemma formatPushMessage_no_ref (data repo hc : value) :
  get data "repository" = Ok repo -> truthy repo = true ->
  get data "head_commit" = Ok hc -> truthy hc = true ->
  get data "ref" = Ok JUndefined ->
  formatPushMessage data = Throw TypeError.
Proof.
  intros Hr Tr Hh Th Hf. unfold formatPushMessage.
  rewrite Hr, Hh, Hf. read_all data Hr. rewrite guard_truthy by assumption.
  read_truthy repo Tr. reflexivity.
Qed.

End RequiredFields.

Section WebhookDispatch.
Context {E : Engine} {R : Runtime} {B : Bot}.
Import GithubWebhook.

(** The four recognized event types go to their formatters. *)
Lemma formatMessage_dispatch (data : value) :
  formatMessage (lit "pull_request") data = formatPullRequestMessage data /\
  formatMessage (lit "push") data = formatPushMessage data /\
  formatMessage (lit "issues") data = formatIssuesMessage data /\
  formatMessage (lit "release") data = formatReleaseMessage data.
Proof. repeat split; reflexivity. Qed.

(** C8: each of the four formatters, to which the four recognized event
    types are dispatched, returns the empty string when one of its two
    required fields is missing, and an empty message is not delivered:
    the handler sends nothing and answers 200 with [No message to send]. *)
Theorem missing_field_no_delivery :
  (forall data,
      formatMessage (lit "pull_request") data = formatPullRequestMessage data /\
      formatMessage (lit "push") data = formatPushMessage data /\
      formatMessage (lit "issues") data = formatIssuesMessage data /\
      formatMessage (lit "release") data = formatReleaseMessage data) /\
  (forall data,
      get data "pull_request" = Ok JUndefined \/ get data "repository" = Ok JUndefined ->
      formatPullRequestMessage data = Ok []) /\
  (forall data,
      get data "repository" = Ok JUndefined \/ get data "head_commit" = Ok JUndefined ->
      formatPushMessage data = Ok []) /\
  (forall data,
      get data "issue" = Ok JUndefined \/ get data "repository" = Ok JUndefined ->
      formatIssuesMessage data = Ok []) /\
  (forall data,
      get data "release" = Ok JUndefined \/ get data "repository" = Ok JUndefined ->
      formatReleaseMessage data = Ok []) /\
  (forall env request eventType data,
      parsed env request eventType data ->
      truthy (resolveChatId env request) = true ->
      formatMessage eventType data = Ok [] ->
      onRequest env request = (json 200 (JStr (lit "No message to send")), [])).
Proof.
  split; [exact formatMessage_dispatch |].
  repeat split.
  - intros data H. destruct (missing_either data _ _ H) as (a & b & Ha & Hb & Hf).
    exact (formatPullRequestMessage_guard data Ha Hb Hf).
  - intros data H. destruct (missing_either data _ _ H) as (a & b & Ha & Hb & Hf).
    exact (formatPushMessage_guard data Ha Hb Hf).
  - intros data H. destruct (missing_either data _ _ H) as (a & b & Ha & Hb & Hf).
    exact (formatIssuesMessage_guard data Ha Hb Hf).
  - intros data H. destruct (missing_either data _ _ H) as (a & b & Ha & Hb & Hf).
    exact (formatReleaseMessage_guard data Ha Hb Hf).
  - intros env request eventType data Hp Hc Hm.
    rewrite (onRequest_parsed Hp), Hc, Hm. reflexivity.
Qed.

(** C9: a pull-request, issues or release payload whose two required
    fields pass the formatter's test but which has no [sender], and a push
    payload whose [repository] and [head_commit] pass it but which has no
    [ref], make the formatter throw a [TypeError]; the handler, which
    dispatches the four event types to these formatters, then sends
    nothing and answers 500 with [Server error]. *)
Theorem missing_sender_or_ref_throws :
  (forall data,
      formatMessage (lit "pull_request") data = formatPullRequestMessage data /\
      formatMessage (lit "push") data = formatPushMessage data /\
      formatMessage (lit "issues") data = formatIssuesMessage data /\
      formatMessage (lit "release") data = formatReleaseMessage data) /\
  (forall data pr repo,
      get data "pull_request" = Ok pr -> truthy pr = true ->
      get data "repository" = Ok repo -> truthy repo = true ->
      get data "sender" = Ok JUndefined ->
      formatPullRequestMessage data = Throw TypeError) /\
  (forall data issue repo,
      get data "issue" = Ok issue -> truthy issue = true ->
      get data "repository" = Ok repo -> truthy repo = true ->
      get data "sender" = Ok JUndefined ->
      formatIssuesMessage data = Throw TypeError) /\
  (forall data release repo,
      get data "release" = Ok release -> truthy release = true ->
      get data "repository" = Ok repo -> truthy repo = true ->
      get data "sender" = Ok JUndefined ->
      formatReleaseMessage data = Throw TypeError) /\
  (forall data repo hc,
      get data "repository" = Ok repo -> truthy repo = true ->
      get data "head_commit" = Ok hc -> truthy hc = true ->
      get data "ref" = Ok JUndefined ->
      formatPushMessage data = Throw TypeError) /\
  (forall env request eventType data e,
      parsed env request eventType data ->
      truthy (resolveChatId env request) = true ->
      formatMessage eventType data = Throw e ->
      onRequest env request = (json 500 (JStr (lit "Server error")), [])).
Proof.
  split; [exact formatMessage_dispatch |].
  repeat split.
  - intros. eapply formatPullRequestMessage_no_sender; eassumption.
  - intros. eapply formatIssuesMessage_no_sender; eassumption.
  - intros. eapply formatReleaseMessage_no_sender; eassumption.
  - intros. eapply formatPushMessage_no_ref; eassumption.
  - intros env request eventType data e Hp Hc Hm.
    rewrite (onRequest_parsed Hp), Hc, Hm. reflexivity.
Qed.

Lemma onRequest_default (env : Env) (request : Request) (d : jsstring)
    (t : option jsstring) :
  default_chat_id env = Some d -> d <> [] ->
  onRequest env (with_token t request) = onRequest env request.
Proof.
  intros Hd Hne. unfold onRequest.
  rewrite !(resolveChatId_default env _ Hd Hne). reflexivity.
Qed.

(** C10: with a default chat identifier configured, two requests that
    differ at most in their [token] parameter resolve to the same chat,
    the default one, and have the same outcome: the same message sent and
    the same response, whatever the tokens are. *)
Theorem default_chat_ignores_token :
  forall (env : Env) (d : jsstring),
    default_chat_id env = Some d -> d <> [] ->
    forall r1 r2 : Request,
      with_token None r1 = with_token None r2 ->
      resolveChatId env r1 = JStr d /\
      resolveChatId env r2 = JStr d /\
      onRequest env r1 = onRequest env r2.
Proof.
  intros env d Hd Hne r1 r2 Heq.
  split; [now apply resolveChatId_default |].
  split; [now apply resolveChatId_default |].
  rewrite <- (onRequest_default env r1 None Hd Hne).
  rewrite <- (onRequest_default env r2 None Hd Hne).
  now rewrite Heq.
Qed.

End WebhookDispatch.

Lemma missing_field_no_delivery_witness :
  formatPullRequestMessage (JObj [(lit "repository", JObj [])]) = Ok [] /\
  @GithubWebhook.onRequest engine runtime bot_accepted env_default
     (post "pull_request" None body_empty None)
    = (json 200 (JStr (lit "No message to send")), []).
Proof.
  destruct (@missing_field_no_delivery engine runtime bot_accepted)
    as (_ & Hpr & _ & _ & _ & Hhandler).
  split.
  - apply Hpr. left. vm_compute. reflexivity.
  - apply (Hhandler env_default (post "pull_request" None body_empty None)
             (lit "pull_request") (JObj [])).
    + repeat split; try (vm_compute; reflexivity); vm_compute; discriminate.
    + vm_compute. reflexivity.
    + vm_compute. reflexivity.
Defined.

Lemma missing_sender_or_ref_throws_witness :
  formatPullRequestMessage
    (JObj [(lit "pull_request", JObj []); (lit "repository", JObj [])])
    = Throw ErrType /\
  @GithubWebhook.onRequest engine runtime bot_accepted env_default
     (post "pull_request" None body_pr_no_sender None)
    = (json 500 (JStr (lit "Server error")), []).
Proof.
  destruct (@missing_sender_or_ref_throws engine runtime bot_accepted)
    as (_ & Hpr & _ & _ & _ & Hhandler).
  split.
  - apply (Hpr _ (JObj []) (JObj [])); vm_compute; reflexivity.
  - apply (Hhandler env_default (post "pull_request" None body_pr_no_sender None)
             (lit "pull_request")
             (JObj [(lit "pull_request", JObj []); (lit "repository", JObj [])])
             ErrType).
    + repeat split; try (vm_compute; reflexivity); vm_compute; discriminate.
    + vm_compute. reflexivity.
    + vm_compute. reflexivity.
Defined.

Lemma default_chat_ignores_token_witness :
  @GithubWebhook.onRequest engine runtime bot_accepted env_default
     (post "ping" None body_empty (Some (lit "bad")))
  = @GithubWebhook.onRequest engine runtime bot_accepted env_default
      (post "ping" None body_empty None).
Proof.
  apply (@default_chat_ignores_token engine runtime bot_accepted
           env_default (lit "1001") eq_refl ltac:(vm_compute; discriminate)
           (post "ping" None body_empty (Some (lit "bad")))
           (post "ping" None body_empty None) eq_refl).
Defined.

(** ** The bot-update handler *)

Section BotUpdateFacts.
Context {E : Engine} {R : Runtime} {B : Bot}.
Import BotUpdate.

Ltac split_cases :=
  repeat match goal with
         | |- context [match ?x with _ => _ end] => destruct x eqn:?
         end.

Lemma sendToken_status (env : Env) (chat_id : value) :
  let resp := fst (sendToken env chat_id) in
  status resp = 200%Z \/ status resp = 500%Z.
Proof.
  unfold sendToken. cbv zeta. split_cases; simpl; auto.
Qed.

(** The token message was accepted: 200, after the one send. *)
Lemma sendToken_accepted (env : Env) (chat_id tok ret ok : value) (s c : jsstring) :
  encryption env chat_id = Ok tok ->
  ToString chat_id = Ok c ->
  ToString tok = Ok s ->
  sendMessage env {| text := tokenText s; chat_id := chat_id; parse_mode := None |}
    = Ok ret ->
  get ret "ok" = Ok ok ->
  truthy ok = true ->
  sendToken env chat_id
    = (success, [{| text := tokenText s; chat_id := chat_id; parse_mode := None |}]).
Proof.
  intros He Hc Hs Hsend Hok Ht. unfold sendToken.
  rewrite He. cbn [bind]. rewrite Hc. cbn [bind]. rewrite Hs, Hsend, Hok, Ht.
  reflexivity.
Qed.

(** The token message was refused ([ok] falsy): 500, after the one send. *)
Lemma sendToken_refused (env : Env) (chat_id tok ret ok : value) (s c : jsstring) :
  encryption env chat_id = Ok tok ->
  ToString chat_id = Ok c ->
  ToString tok = Ok s ->
  sendMessage env {| text := tokenText s; chat_id := chat_id; parse_mode := None |}
    = Ok ret ->
  get ret "ok" = Ok ok ->
  truthy ok = false ->
  status (fst (sendToken env chat_id)) = 500%Z /\
  snd (sendToken env chat_id)
    = [{| text := tokenText s; chat_id := chat_id; parse_mode := None |}].
Proof.
  intros He Hc Hs Hsend Hok Ht. unfold sendToken.
  rewrite He. cbn [bind]. rewrite Hc. cbn [bind]. rewrite Hs, Hsend, Hok, Ht.
  cbn [negb]. split_cases; split; reflexivity.
Qed.

(** The statuses of the bot-update handler: the response status is always
    one of 200, 400, 405 and 500.  For a POST whose body parses to an update: 400 when
    the chat id is missing; 500 when the bot token is not configured;
    otherwise 200 with nothing sent when the text is not [/token], and for
    [/token] 200 when the chat platform accepts the token message but 500
    when it refuses it ([ok] falsy), the message having been sent once
    either way.  Another method is answered 405 and a body that cannot be
    read 500. *)
Theorem bot_update_status :
  forall (env : Env) (request : Request),
    (let st := status (fst (onRequest env request)) in
     st = 200%Z \/ st = 400%Z \/ st = 405%Z \/ st = 500%Z) /\
    (method request <> lit "POST" -> status (fst (onRequest env request)) = 405%Z) /\
    (forall e, method request = lit "POST" ->
       (data <- JSON_parse (body_text request) ;; readUpdate data) = Throw e ->
       status (fst (onRequest env request)) = 500%Z) /\
    (forall data message chat_id,
       method request = lit "POST" ->
       JSON_parse (body_text request) = Ok data ->
       readUpdate data = Ok (message, chat_id) ->
       (truthy chat_id = false -> status (fst (onRequest env request)) = 400%Z) /\
       (truthy chat_id = true -> truthy (of_option (token env)) = false ->
          status (fst (onRequest env request)) = 500%Z) /\
       (truthy chat_id = true -> truthy (of_option (token env)) = true ->
          is_str message "/token" = false ->
          onRequest env request = (success, [])) /\
       (truthy chat_id = true -> truthy (of_option (token env)) = true ->
          is_str message "/token" = true ->
          forall tok ret ok s c,
            encryption env chat_id = Ok tok ->
            ToString chat_id = Ok c ->
            ToString tok = Ok s ->
            sendMessage env
              {| text := tokenText s; chat_id := chat_id; parse_mode := None |}
              = Ok ret ->
            get ret "ok" = Ok ok ->
            snd (onRequest env request)
              = [{| text := tokenText s; chat_id := chat_id; parse_mode := None |}] /\
            (truthy ok = true -> status (fst (onRequest env request)) = 200%Z) /\
            (truthy ok = false -> status (fst (onRequest env request)) = 500%Z))).
Proof.
  intros env request. split; [| split; [| split; [| ]]].
  - cbv zeta. unfold onRequest.
    destruct (negb (jsstring_eqb (method request) (lit "POST"))); [simpl; auto |].
    destruct (data <- JSON_parse (body_text request) ;; readUpdate data)
      as [[message chat_id] | e]; [| simpl; auto].
    destruct (negb (truthy chat_id)); [simpl; auto |].
    destruct (negb (truthy (of_option (token env)))); [simpl; auto |].
    destruct (is_str message "/token"); [| simpl; auto].
    destruct (sendToken_status env chat_id) as [H | H]; rewrite H; auto.
  - intros Hm. unfold onRequest.
    apply jsstring_eqb_neq in Hm. rewrite Hm. reflexivity.
  - intros e Hm Hthrow. unfold onRequest.
    rewrite Hm, jsstring_eqb_refl, Hthrow. reflexivity.
  - intros data message chat_id Hm Hparse Hread.
    assert (Hrun : onRequest env request =
              if negb (truthy chat_id) then
                (json 400 (JStr (lit "No chat_id found")), [])
              else if negb (truthy (of_option (token env))) then
                (json 500 (JStr (lit "Bot token not configured")), [])
              else if is_str message "/token" then sendToken env chat_id
              else (success, [])).
    { unfold onRequest. rewrite Hm, jsstring_eqb_refl, Hparse. cbn [negb bind].
      rewrite Hread. reflexivity. }
    rewrite Hrun.
    split; [intros ->; reflexivity |].
    split; [intros -> ->; reflexivity |].
    split; [intros -> -> ->; reflexivity |].
    intros Hc Ht Hs tok ret ok s c He Hcs Hts Hsend Hok.
    rewrite Hc, Ht, Hs. cbn [negb].
    split; [| split].
    + destruct (truthy ok) eqn:Hv.
      * now rewrite (sendToken_accepted env chat_id He Hcs Hts Hsend Hok Hv).
      * now apply (sendToken_refused env chat_id He Hcs Hts Hsend Hok Hv).
    + intros Hv.
      now rewrite (sendToken_accepted env chat_id He Hcs Hts Hsend Hok Hv).
    + intros Hv.
      now apply (sendToken_refused env chat_id He Hcs Hts Hsend Hok Hv).
Qed.

End BotUpdateFacts.

(** C4: the update carries a chat id and the bot token is configured; the
    chat platform refuses the token message, and the endpoint answers
    500, where the claim, like the handler's own closing comment, asks
    for 200. *)
Lemma failed_send_not_200 :
  token env_plain <> None /\
  @BotUpdate.readUpdate engine (update "/token")
    = Ok (JStr (lit "/token"), @JNum engine 42%Z) /\
  status (fst (@BotUpdate.onRequest engine runtime bot_refused env_plain
                 (post_update body_token_command))) = 500%Z /\
  status (fst (@BotUpdate.onRequest engine runtime bot_refused env_plain
                 (post_update body_token_command))) <> 200%Z.
Proof.
  split; [discriminate |].
  split; [vm_compute; reflexivity |].
  split; [vm_compute; reflexivity |].
  vm_compute. discriminate.
Qed.

Lemma bot_update_status_witness :
  status (fst (@BotUpdate.onRequest engine runtime bot_refused env_plain
                 (post_update body_token_command))) = 500%Z.
Proof.
  pose proof (@bot_update_status engine runtime bot_refused env_plain
                (post_update body_token_command)) as (_ & _ & _ & H).
  destruct (H (update "/token") (JStr (lit "/token")) (@JNum engine 42%Z)
              eq_refl eq_refl eq_refl) as (_ & _ & _ & Htok).
  edestruct (Htok eq_refl eq_refl eq_refl) as (_ & _ & H500);
    [vm_compute; reflexivity .. |].
  apply H500. vm_compute. reflexivity.
Defined.

(** ** The token codec *)

Module CodecFacts.
Import TokenCodec.

Lemma chars_of_uint_digits (u : Decimal.uint) : Forall is_digit (chars_of_uint u).
Proof.
  induction u; simpl; constructor; try assumption; unfold is_digit; lia.
Qed.

Lemma uint_of_chars_of_uint (u : Decimal.uint) :
  uint_of_chars (chars_of_uint u) = Some u.
Proof.
  induction u; simpl; try reflexivity; rewrite IHu; reflexivity.
Qed.

Lemma int_of_chars_of_int (i : Decimal.signed_int) :
  chars_of_int i <> [] -> int_of_chars (chars_of_int i) = Some i.
Proof.
  destruct i as [u | u]; simpl.
  - intros Hne. destruct u; simpl in *; try congruence;
      rewrite uint_of_chars_of_uint; reflexivity.
  - intros _. now rewrite uint_of_chars_of_uint.
Qed.

Lemma to_int_chars_nonempty (c : Z) : chars_of_int (Z.to_int c) <> [].
Proof.
  destruct c as [| p | p]; simpl; try discriminate.
  pose proof (DecimalPos.Unsigned.to_uint_nonnil p) as Hn.
  destruct (Pos.to_uint p); simpl; congruence.
Qed.

(** Reading back the decimal text of an identifier gives the identifier. *)
Lemma parse_print (c : Z) : parse (print c) = Some c.
Proof.
  unfold parse, print.
  rewrite int_of_chars_of_int by apply to_int_chars_nonempty.
  simpl. now rewrite DecimalZ.of_to.
Qed.

Lemma print_no_separator (c : Z) : Forall (fun x => x <> 46%N) (print c).
Proof.
  unfold print. destruct (Z.to_int c) as [u | u]; simpl.
  - eapply Forall_impl; [| apply chars_of_uint_digits].
    unfold is_digit. intros; lia.
  - constructor; [discriminate |].
    eapply Forall_impl; [| apply chars_of_uint_digits].
    unfold is_digit. intros; lia.
Qed.

Lemma payload_of_app (p r : jsstring) :
  Forall (fun x => x <> 46%N) p -> payload_of (p ++ 46%N :: r) = p.
Proof.
  induction 1 as [| x p Hx Hp IH]; simpl.
  - reflexivity.
  - apply N.eqb_neq in Hx. rewrite Hx. now rewrite IH.
Qed.

Section Codec.
Variable mac : jsstring -> jsstring -> jsstring.

Lemma payload_of_encode (c : Z) (key : jsstring) :
  payload_of (encode mac c key) = print c.
Proof. unfold encode. apply payload_of_app, print_no_separator. Qed.

Lemma decode_encode (c : Z) (key : jsstring) :
  decode mac (encode mac c key) key = Decoded c.
Proof.
  unfold decode. rewrite payload_of_encode, parse_print.
  now rewrite jsstring_eqb_refl.
Qed.

Lemma decode_sound (t key : jsstring) (c : Z) :
  decode mac t key = Decoded c -> t = encode mac c key.
Proof.
  unfold decode. destruct (parse (payload_of t)) as [c' |]; [| discriminate].
  destruct (jsstring_eqb t (encode mac c' key)) eqn:Heq; [| discriminate].
  intros H. injection H as <-. now apply jsstring_eqb_eq.
Qed.

(** C1: under a fixed key, decoding the token of an identifier gives the
    identifier back, and a string that is not the token of any identifier
    under that key is refused with the authentication failure. *)
Theorem token_round_trip :
  forall (key : jsstring),
    (forall c : Z, decode mac (encode mac c key) key = Decoded c) /\
    (forall t : jsstring,
        (forall c : Z, t <> encode mac c key) -> decode mac t key = AuthError).
Proof.
  intros key. split.
  - intros c. apply decode_encode.
  - intros t Hnot. destruct (decode mac t key) as [c |] eqn:Hd; [| reflexivity].
    apply decode_sound in Hd. now contradiction (Hnot c).
Qed.

End Codec.
End CodecFacts.

Lemma token_round_trip_witness :
  TokenCodec.decode checksum (TokenCodec.encode checksum (-1001234) (lit "k3y"))
    (lit "k3y") = TokenCodec.Decoded (-1001234) /\
  TokenCodec.decode checksum [] (lit "k3y") = TokenCodec.AuthError.
Proof.
  destruct (CodecFacts.token_round_trip checksum (lit "k3y")) as [Hrt Hrej].
  split.
  - apply Hrt.
  - apply Hrej. intros c. unfold TokenCodec.encode, TokenCodec.print.
    pose proof (CodecFacts.to_int_chars_nonempty c) as Hne.
    destruct (TokenCodec.chars_of_int (Z.to_int c)); [congruence | discriminate].
Defined.

(** * Further properties of the handlers *)

Ltac case_split :=
  repeat match goal with
         | |- context [match ?x with _ => _ end] => destruct x eqn:?
         end.

Section WebhookFlow.
Context {E : Engine} {R : Runtime} {B : Bot}.
Import GithubWebhook.

(** Either the request reaches the chat resolution, or it was refused
    before, with nothing sent. *)
Lemma onRequest_refused_or_parsed (env : Env) (request : Request) :
  (exists eventType data, parsed env request eventType data) \/
  (snd (onRequest env request) = [] /\
   exists code msg,
     fst (onRequest env request) = json code (JStr msg) /\
     (code = 405 \/ code = 400 \/ code = 401 \/ code = 500)%Z).
Proof.
  unfold onRequest.
  destruct (jsstring_eqb (method request) (lit "POST")) eqn:Hm; cbn [negb].
  2:{ right. split; [reflexivity |]. do 2 eexists. split; [reflexivity | auto]. }
  destruct (truthy (of_option (header_event request))) eqn:Hev; cbn [negb].
  2:{ right. split; [reflexivity |]. do 2 eexists. split; [reflexivity | auto]. }
  apply jsstring_eqb_eq in Hm.
  apply truthy_of_option in Hev as (eventType & Hev & Hne).
  destruct (verifySignature env request) as [| [|]] eqn:Hv.
  - destruct (JSON_parse (body_text request)) as [data | e] eqn:Hp.
    + left. exists eventType, data. repeat split; try assumption. congruence.
    + right. split; [reflexivity |]. do 2 eexists. split; [reflexivity | auto].
  - destruct (JSON_parse (body_text request)) as [data | e] eqn:Hp.
    + left. exists eventType, data. repeat split; try assumption. congruence.
    + right. split; [reflexivity |]. do 2 eexists. split; [reflexivity | auto].
  - right. split; [reflexivity |]. do 2 eexists. split; [reflexivity |]. auto.
Qed.

Lemma deliver_cases (env : Env) (message : jsstring) (chatId : value) :
  (message = [] /\ deliver env message chatId
                   = (json 200 (JStr (lit "No message to send")), [])) \/
  (message <> [] /\
   snd (deliver env message chatId)
     = [{| text := message; chat_id := chatId; parse_mode := Some (lit "HTML") |}] /\
   exists code m,
     fst (deliver env message chatId) = json code m /\
     (code = 200 \/ code = 422 \/ code = 500)%Z).
Proof.
  destruct message as [| c message]; [left; split; reflexivity |].
  right. split; [discriminate |]. unfold deliver.
  case_split; (split; [reflexivity |]); do 2 eexists;
    (split; [reflexivity | auto]).
Qed.

(** The checks are made in a fixed order, and the first that fails
    decides the answer: the method (405), the event header (400), the
    signature (401), the JSON body (500), the chat target (422).  In each
    case nothing is sent. *)
Theorem webhook_validation_order :
  forall (env : Env) (request : Request),
    (method request <> lit "POST" ->
       onRequest env request
         = (json 405 (JStr (lit "Please use POST method")), [])) /\
    (method request = lit "POST" ->
     truthy (of_option (header_event request)) = false ->
       onRequest env request
         = (json 400 (JStr (lit "Missing X-GitHub-Event header")), [])) /\
    (method request = lit "POST" ->
     truthy (of_option (header_event request)) = true ->
     verifySignature env request = Verified false ->
       onRequest env request
         = (json 401 (JStr (lit "Invalid signature")), [])) /\
    (forall e,
     method request = lit "POST" ->
     truthy (of_option (header_event request)) = true ->
     verifySignature env request <> Verified false ->
     JSON_parse (body_text request) = Throw e ->
       onRequest env request = (json 500 (JStr (lit "Server error")), [])) /\
    (forall eventType data,
     parsed env request eventType data ->
     truthy (resolveChatId env request) = false ->
       onRequest env request
         = (json 422 (JStr (lit "No valid chat_id provided")), [])).
Proof.
  intros env request. repeat split.
  - intros Hm. unfold onRequest. apply jsstring_eqb_neq in Hm. now rewrite Hm.
  - intros Hm Hev. unfold onRequest. now rewrite Hm, jsstring_eqb_refl, Hev.
  - intros Hm Hev Hv. unfold onRequest.
    now rewrite Hm, jsstring_eqb_refl, Hev, Hv.
  - intros e Hm Hev Hv Hp. unfold onRequest.
    rewrite Hm, jsstring_eqb_refl, Hev, Hp. cbn [negb].
    destruct (verifySignature env request) as [| [|]]; try reflexivity.
    now contradiction Hv.
  - intros eventType data Hp Hc. now rewrite (onRequest_parsed Hp), Hc.
Qed.

(** Every answer is a [{code, message}] body whose code is the HTTP
    status, one of 200, 400, 401, 405, 422 and 500. *)
Theorem webhook_status_codes :
  forall (env : Env) (request : Request),
    exists code m,
      fst (onRequest env request) = json code m /\
      (code = 200 \/ code = 400 \/ code = 401 \/ code = 405 \/
       code = 422 \/ code = 500)%Z.
Proof.
  intros env request.
  destruct (onRequest_refused_or_parsed env request)
    as [(eventType & data & Hp) | (_ & code & msg & Hr & Hc)].
  - rewrite (onRequest_parsed Hp).
    destruct (negb (truthy (resolveChatId env request))).
    + do 2 eexists. split; [reflexivity | lia].
    + destruct (formatMessage eventType data) as [message | e].
      * destruct (deliver_cases env message (resolveChatId env request))
          as [[_ ->] | (_ & _ & code & m & -> & Hc)].
        -- do 2 eexists. split; [reflexivity | lia].
        -- exists code, m. split; [reflexivity |]. lia.
      * do 2 eexists. split; [reflexivity | lia].
  - exists code, (JStr msg). split; [exact Hr |]. lia.
Qed.

Lemma onRequest_sends (env : Env) (request : Request) :
    snd (onRequest env request) = [] \/
    exists eventType data message,
      parsed env request eventType data /\
      truthy (resolveChatId env request) = true /\
      formatMessage eventType data = Ok message /\
      message <> [] /\
      snd (onRequest env request)
        = [{| text := message; chat_id := resolveChatId env request;
              parse_mode := Some (lit "HTML") |}].
Proof.
  destruct (onRequest_refused_or_parsed env request)
    as [(eventType & data & Hp) | (Hs & _)]; [| now left].
  rewrite (onRequest_parsed Hp).
  destruct (truthy (resolveChatId env request)) eqn:Hc; cbn [negb];
    [| now left].
  destruct (formatMessage eventType data) as [message | e] eqn:Hf; [| now left].
  destruct (deliver_cases env message (resolveChatId env request))
    as [[_ ->] | (Hne & Hsent & _)]; [now left |].
  right. exists eventType, data, message. auto.
Qed.

(** At most one message is sent, and only after every check has passed:
    its text is the formatted message, which is not empty, it goes to the
    resolved chat and asks for HTML parsing. *)
Theorem webhook_send_discipline :
  forall (env : Env) (request : Request),
    snd (onRequest env request) = [] \/
    exists eventType data message,
      parsed env request eventType data /\
      truthy (resolveChatId env request) = true /\
      formatMessage eventType data = Ok message /\
      message <> [] /\
      snd (onRequest env request)
        = [{| text := message; chat_id := resolveChatId env request;
              parse_mode := Some (lit "HTML") |}].
Proof. exact onRequest_sends. Qed.

End WebhookFlow.

Lemma webhook_validation_order_witness :
  @GithubWebhook.onRequest engine runtime bot_accepted env_default
     {| method := lit "GET"; header_event := None; header_signature := None;
        body_text := []; query_token := None |}
    = (json 405 (JStr (lit "Please use POST method")), []) /\
  @GithubWebhook.onRequest engine runtime bot_accepted env_default
     (post "push" (Some (lit "sha256=0")) (lit "not json") None)
    = (json 401 (JStr (lit "Invalid signature")), []) /\
  @GithubWebhook.onRequest engine runtime bot_accepted env_default
     (post "push" None (lit "not json") None)
    = (json 500 (JStr (lit "Server error")), []) /\
  @GithubWebhook.onRequest engine runtime bot_accepted env_plain
     (post "push" None body_pr_no_sender None)
    = (json 422 (JStr (lit "No valid chat_id provided")), []).
Proof.
  split; [| split; [| split]].
  - apply (proj1 (@webhook_validation_order engine runtime bot_accepted
                    env_default
                    {| method := lit "GET"; header_event := None;
                       header_signature := None; body_text := [];
                       query_token := None |})).
    vm_compute. discriminate.
  - apply (proj1 (proj2 (proj2
             (@webhook_validation_order engine runtime bot_accepted env_default
                (post "push" (Some (lit "sha256=0")) (lit "not json") None)))));
      vm_compute; reflexivity.
  - apply (proj1 (proj2 (proj2 (proj2
             (@webhook_validation_order engine runtime bot_accepted env_default
                (post "push" None (lit "not json") None))))) ErrSyntax);
      try (vm_compute; reflexivity).
    vm_compute. discriminate.
  - apply (proj2 (proj2 (proj2 (proj2
             (@webhook_validation_order engine runtime bot_accepted env_plain
                (post "push" None body_pr_no_sender None)))))
             (lit "push")
             (JObj [(lit "pull_request", JObj []); (lit "repository", JObj [])])).
    + repeat split; try (vm_compute; reflexivity); vm_compute; discriminate.
    + vm_compute. reflexivity.
Defined.

Section WebhookDelivery.
Context {E : Engine} {R : Runtime} {B : Bot}.
Import GithubWebhook.

Lemma event_message_nonempty (eventType : jsstring) :
  lit "收到GitHub事件: " ++ eventType <> [].
Proof. vm_compute. discriminate. Qed.

(** An event type other than the four recognized ones is reported as
    such, whatever the payload is: one message, the fixed prefix followed
    by the event type, goes to the resolved chat. *)
Theorem webhook_unknown_event :
  forall (env : Env) (request : Request) (eventType : jsstring) (data : value),
    parsed env request eventType data ->
    truthy (resolveChatId env request) = true ->
    eventType <> lit "pull_request" -> eventType <> lit "push" ->
    eventType <> lit "issues" -> eventType <> lit "release" ->
    formatMessage eventType data = Ok (lit "收到GitHub事件: " ++ eventType) /\
    snd (onRequest env request)
      = [{| text := lit "收到GitHub事件: " ++ eventType;
            chat_id := resolveChatId env request;
            parse_mode := Some (lit "HTML") |}].
Proof.
  intros env request eventType data Hp Hc H1 H2 H3 H4.
  assert (Hf : formatMessage eventType data
               = Ok (lit "收到GitHub事件: " ++ eventType)).
  { unfold formatMessage.
    apply jsstring_eqb_neq in H1, H2, H3, H4. now rewrite H1, H2, H3, H4. }
  split; [exact Hf |].
  rewrite (onRequest_parsed Hp), Hc, Hf. cbn [negb].
  destruct (deliver_cases env (lit "收到GitHub事件: " ++ eventType)
              (resolveChatId env request)) as [[He _] | (_ & Hs & _)].
  - now apply event_message_nonempty in He.
  - exact Hs.
Qed.

(** What the chat platform answers decides the response: [ok] truthy
    gives 200; [ok] falsy gives 422 with the platform's [description] as
    the message; a send that throws, or that returns [undefined] or
    [null], gives 500.  The one message has been sent in each case. *)
Theorem webhook_delivery_result :
  forall (env : Env) (request : Request) (eventType : jsstring) (data : value)
         (message : jsstring),
    parsed env request eventType data ->
    truthy (resolveChatId env request) = true ->
    formatMessage eventType data = Ok message ->
    message <> [] ->
    let args := {| text := message; chat_id := resolveChatId env request;
                   parse_mode := Some (lit "HTML") |} in
    (forall ret ok,
        sendMessage env args = Ok ret -> get ret "ok" = Ok ok -> truthy ok = true ->
        onRequest env request
          = (json 200 (JStr (lit "Notification sent successfully")), [args])) /\
    (forall ret ok description,
        sendMessage env args = Ok ret -> get ret "ok" = Ok ok -> truthy ok = false ->
        get ret "description" = Ok description ->
        onRequest env request = (json 422 description, [args])) /\
    (forall e,
        sendMessage env args = Throw e ->
        onRequest env request = (json 500 (JStr (lit "Server error")), [args])) /\
    (forall ret,
        sendMessage env args = Ok ret -> nullish ret = true ->
        onRequest env request = (json 500 (JStr (lit "Server error")), [args])).
Proof.
  intros env request eventType data message Hp Hc Hf Hne args.
  assert (Hrun : onRequest env request
                 = deliver env message (resolveChatId env request)).
  { now rewrite (onRequest_parsed Hp), Hc, Hf. }
  rewrite Hrun. unfold deliver.
  destruct message as [| c message]; [congruence |].
  fold args. repeat split.
  - intros ret ok Hs Hok Ht. now rewrite Hs, Hok, Ht.
  - intros ret ok d Hs Hok Ht Hd. now rewrite Hs, Hok, Ht, Hd.
  - intros e Hs. now rewrite Hs.
  - intros ret Hs Hn. rewrite Hs. destruct ret; try discriminate; reflexivity.
Qed.

(** Without a default chat, a token that decodes to a truthy value sets
    the chat: whatever is sent goes to the decoded chat.  An empty
    [token] parameter is not decoded at all. *)
Theorem webhook_token_route :
  forall (env : Env) (request : Request),
    truthy (of_option (default_chat_id env)) = false ->
    (forall t v,
        query_token request = Some t -> t <> [] ->
        decryption env t = Ok v -> truthy v = true ->
        resolveChatId env request = v /\
        forall m, In m (snd (onRequest env request)) -> chat_id m = v) /\
    (query_token request = Some [] -> resolveChatId env request = JNull).
Proof.
  intros env request Hd. split.
  - intros t v Ht Hne Hdec Hv.
    assert (Hr : resolveChatId env request = v).
    { unfold resolveChatId. rewrite Hd, Ht. cbn [truthy negb].
      destruct t as [| c t]; [congruence |]. now rewrite Hdec. }
    split; [exact Hr |].
    intros m Hin.
    destruct (onRequest_sends env request)
      as [Hs | (e & d & msg & _ & _ & _ & _ & Hs)]; rewrite Hs in Hin.
    + contradiction.
    + destruct Hin as [<- | []]. exact Hr.
  - intros Ht. unfold resolveChatId. now rewrite Hd, Ht.
Qed.

End WebhookDelivery.

Lemma webhook_unknown_event_witness :
  snd (@GithubWebhook.onRequest engine runtime bot_accepted env_default
         (post "ping" None body_empty None))
    = [{| text := lit "收到GitHub事件: ping"; chat_id := JStr (lit "1001");
          parse_mode := Some (lit "HTML") |}].
Proof.
  apply (@webhook_unknown_event engine runtime bot_accepted env_default
           (post "ping" None body_empty None) (lit "ping") (JObj []));
    try (vm_compute; discriminate);
    try (vm_compute; reflexivity).
  repeat split; try (vm_compute; reflexivity); vm_compute; discriminate.
Defined.

Lemma webhook_delivery_result_witness :
  @GithubWebhook.onRequest engine runtime bot_refused env_default
     (post "ping" None body_empty None)
    = (json 422 (JStr (lit "Forbidden: bot was blocked by the user")),
       [{| text := lit "收到GitHub事件: ping"; chat_id := JStr (lit "1001");
           parse_mode := Some (lit "HTML") |}]).
Proof.
  pose proof (@webhook_delivery_result engine runtime bot_refused env_default
                (post "ping" None body_empty None) (lit "ping") (JObj [])
                (lit "收到GitHub事件: ping")) as H.
  cbv zeta in H.
  destruct H as (_ & H422 & _).
  - repeat split; try (vm_compute; reflexivity); vm_compute; discriminate.
  - vm_compute. reflexivity.
  - vm_compute. reflexivity.
  - vm_compute. discriminate.
  - eapply H422; vm_compute; reflexivity.
Defined.

Lemma webhook_token_route_witness :
  @GithubWebhook.resolveChatId engine bot_accepted env_plain
     (post "ping" None body_empty
        (Some (TokenCodec.encode checksum 42 (lit "k3y"))))
    = @JNum engine 42%Z.
Proof.
  refine (proj1 (proj1 (@webhook_token_route engine runtime bot_accepted env_plain
                   (post "ping" None body_empty
                      (Some (TokenCodec.encode checksum 42 (lit "k3y"))))
                   eq_refl)
                 (TokenCodec.encode checksum 42 (lit "k3y")) (@JNum engine 42%Z)
                 eq_refl _ _ eq_refl)).
  - vm_compute. discriminate.
  - vm_compute. reflexivity.
Defined.

(** ** Issue and release messages *)

Section IssuesRelease.
Context {E : Engine}.

(** In the message of an issues payload the verb is the created verb for
    [opened], the closed verb for [closed], the reopened and edited verbs
    for [reopened] and [edited], and for any other action string the
    updated verb with that string in brackets. *)
Theorem issues_action_verb :
  forall (data action issue : value) (msg : jsstring),
    get data "action" = Ok action ->
    get data "issue" = Ok issue ->
    formatIssuesMessage data = Ok msg ->
    msg <> [] ->
    exists verb htmlUrl repoName number senderLogin title,
      msg = issueTemplate htmlUrl repoName number senderLogin verb title /\
      (v <- get issue "title" ;; ToString v) = Ok title /\
      (v <- get issue "number" ;; ToString v) = Ok number /\
      (action = JStr (lit "opened") -> verb = lit "创建了新的") /\
      (action = JStr (lit "closed") -> verb = lit "关闭了") /\
      (action = JStr (lit "reopened") -> verb = lit "重新打开了") /\
      (action = JStr (lit "edited") -> verb = lit "编辑了") /\
      (forall s, action = JStr s ->
         s <> lit "opened" -> s <> lit "closed" ->
         s <> lit "reopened" -> s <> lit "edited" ->
         verb = lit "更新了(" ++ s ++ lit ")").
Proof.
  intros data action issue msg Ha Hi H Hne.
  unfold formatIssuesMessage in H.
  rewrite Ha, Hi in H. cbn [bind] in H.
  bind_inv H.
  destruct (negb (truthy issue) || negb (truthy _)); [congruence |].
  bind_inv H.
  match goal with
  | Hv : issueActionText action = Ok ?verb |- _ =>
      exists verb; do 5 eexists;
      split; [injection H as <-; reflexivity |];
      split; [cbn [bind]; eassumption |];
      split; [cbn [bind]; eassumption |];
      unfold issueActionText in Hv
  end.
  repeat split.
  - intros ->. rewrite is_str_lit in *. congruence.
  - intros ->. change (is_str (JStr (lit "closed")) "opened") with false in *.
    rewrite is_str_lit in *. congruence.
  - intros ->. change (is_str (JStr (lit "reopened")) "opened") with false in *.
    change (is_str (JStr (lit "reopened")) "closed") with false in *.
    rewrite is_str_lit in *. congruence.
  - intros ->. change (is_str (JStr (lit "edited")) "opened") with false in *.
    change (is_str (JStr (lit "edited")) "closed") with false in *.
    change (is_str (JStr (lit "edited")) "reopened") with false in *.
    rewrite is_str_lit in *. congruence.
  - intros s -> H1 H2 H3 H4.
    match goal with
    | Hv : _ = Ok ?verb |- ?verb = _ =>
        rewrite !is_str_other in Hv by assumption;
        cbn [ToString bind] in Hv; congruence
    end.
Qed.

(** A release message names the release by its [name], or by its tag
    when the name is missing or empty; the verb is the published verb for
    [published] and otherwise the updated verb with the action string in
    brackets. *)
Theorem release_name_and_verb :
  forall (data action release : value) (msg : jsstring),
    get data "action" = Ok action ->
    get data "release" = Ok release ->
    formatReleaseMessage data = Ok msg ->
    msg <> [] ->
    exists verb htmlUrl repoName senderLogin name name0 tagName,
      msg = releaseTemplate htmlUrl repoName senderLogin verb name /\
      get release "name" = Ok name0 /\
      get release "tag_name" = Ok tagName /\
      ToString (if truthy name0 then name0 else tagName) = Ok name /\
      (action = JStr (lit "published") -> verb = lit "发布了新的") /\
      (forall s, action = JStr s -> s <> lit "published" ->
         verb = lit "更新了(" ++ s ++ lit ")").
Proof.
  intros data action release msg Ha Hr H Hne.
  unfold formatReleaseMessage in H.
  rewrite Ha, Hr in H. cbn [bind] in H.
  bind_inv H.
  destruct (negb (truthy release) || negb (truthy _)); [congruence |].
  bind_inv H.
  match goal with
  | Hv : releaseActionText action = Ok ?verb |- _ =>
      exists verb; do 6 eexists;
      split; [injection H as <-; reflexivity |];
      split; [reflexivity |];
      split; [reflexivity |];
      split; [eassumption |];
      unfold releaseActionText in Hv
  end.
  split.
  - intros ->. rewrite is_str_lit in *. congruence.
  - intros s -> H1.
    match goal with
    | Hv : _ = Ok ?verb |- ?verb = _ =>
        rewrite !is_str_other in Hv by assumption;
        cbn [ToString bind] in Hv; congruence
    end.
Qed.

End IssuesRelease.

Lemma issues_action_verb_witness :
  exists verb htmlUrl repoName number senderLogin title,
    issueTemplate (lit "h") (lit "a/b") (lit "7") (lit "bob") (lit "更新了(zzz)") (lit "T")
      = issueTemplate htmlUrl repoName number senderLogin verb title /\
    title = lit "T" /\ number = lit "7" /\
    verb = lit "更新了(" ++ lit "zzz" ++ lit ")".
Proof.
  destruct (@issues_action_verb engine (issue_payload (lit "zzz"))
              (JStr (lit "zzz")) issue_object
              (issueTemplate (lit "h") (lit "a/b") (lit "7") (lit "bob")
                 (lit "更新了(zzz)") (lit "T"))
              eq_refl eq_refl ltac:(vm_compute; reflexivity)
              ltac:(vm_compute; discriminate))
    as (verb & h & r & n & s & t & Hmsg & Ht & Hn & _ & _ & _ & _ & Hother).
  exists verb, h, r, n, s, t. split; [exact Hmsg |].
  split; [vm_compute in Ht; injection Ht as <-; reflexivity |].
  split; [vm_compute in Hn; injection Hn as <-; reflexivity |].
  apply Hother; [reflexivity | | | |]; vm_compute; discriminate.
Defined.

Lemma release_name_and_verb_witness :
  exists verb htmlUrl repoName senderLogin name,
    releaseTemplate (lit "h") (lit "a/b") (lit "bob") (lit "发布了新的") (lit "v1")
      = releaseTemplate htmlUrl repoName senderLogin verb name /\
    name = lit "v1" /\ verb = lit "发布了新的".
Proof.
  destruct (@release_name_and_verb engine (release_payload (lit "published") JNull)
              (JStr (lit "published")) (release_object JNull)
              (releaseTemplate (lit "h") (lit "a/b") (lit "bob")
                 (lit "发布了新的") (lit "v1"))
              eq_refl eq_refl ltac:(vm_compute; reflexivity)
              ltac:(vm_compute; discriminate))
    as (verb & h & r & s & name & name0 & tag & Hmsg & Hn0 & Htag & Hname & Hpub & _).
  exists verb, h, r, s, name. split; [exact Hmsg |]. split.
  - vm_compute in Hn0. injection Hn0 as <-.
    vm_compute in Htag. injection Htag as <-.
    vm_compute in Hname. injection Hname as <-. reflexivity.
  - apply Hpub. reflexivity.
Defined.

(** ** When a formatter returns a message *)

Section FormatterResults.
Context {E : Engine}.









End FormatterResults.


Section PayloadShapes.
Context {E : Engine}.

(** A payload that is [null] makes every formatter throw; a payload that
    is neither [null] nor an object (a number, a string, a boolean, an
    array) has no fields, and every formatter returns the empty string. *)
Theorem payload_not_an_object :
  forall data : value,
    is_object data = false ->
    (nullish data = true ->
       formatPullRequestMessage data = Throw TypeError /\
       formatPushMessage data = Throw TypeError /\
       formatIssuesMessage data = Throw TypeError /\
       formatReleaseMessage data = Throw TypeError) /\
    (nullish data = false ->
       formatPullRequestMessage data = Ok [] /\
       formatPushMessage data = Ok [] /\
       formatIssuesMessage data = Ok [] /\
       formatReleaseMessage data = Ok []).
Proof.
  intros data Hobj.
  destruct data; try discriminate Hobj; split; intros Hn;
    try discriminate Hn; repeat split; reflexivity.
Qed.

Lemma replace_occurrence (pat rep s : jsstring) :
  (exists a b, s = a ++ pat ++ b /\ replace pat rep s = a ++ rep ++ b) \/
  ((forall a b, s <> a ++ pat ++ b) /\ replace pat rep s = s).
Proof.
  induction s as [| c s IH]; rewrite replace_unfold.
  - destruct (starts_with pat []) eqn:Hs.
    + left. exists [], (skipn (List.length pat) []). split; [| reflexivity].
      now apply starts_with_inv.
    + right. split; [| reflexivity]. intros a b Hab.
      destruct a; [| discriminate]. simpl in Hab.
      rewrite Hab, starts_with_app in Hs. discriminate.
  - destruct (starts_with pat (c :: s)) eqn:Hs.
    + left. exists [], (skipn (List.length pat) (c :: s)). split; [| reflexivity].
      now apply starts_with_inv.
    + destruct IH as [(a & b & Hab & Hr) | (Hno & Hr)].
      * left. exists (c :: a), b. simpl. now rewrite Hab at 1; rewrite Hr.
      * right. split; [| now rewrite Hr]. intros a b Hab.
        destruct a as [| c' a].
        -- simpl in Hab. rewrite Hab, starts_with_app in Hs. discriminate.
        -- injection Hab as _ Hab. now apply (Hno a b).
Qed.

(** A push message is only produced from a payload whose [ref] is a
    string.  Its third line is [<sender> 推送到 <branch> 分支], where the
    branch is that string with one occurrence of [refs/heads/] removed, or
    the string itself when there is none; a leading [refs/heads/] is the
    one removed. *)
Theorem push_branch :
  forall (data r : value) (msg : jsstring),
    get data "ref" = Ok r ->
    formatPushMessage data = Ok msg ->
    msg <> [] ->
    exists ref branch repoUrl repoName senderLogin excerpt,
      r = JStr ref /\
      msg = lit "<b>GitHub Push通知</b>" ++ [10; 10]%N ++
            lit "<a href=" ++ [34]%N ++ repoUrl ++ [34]%N ++ lit ">" ++
            repoName ++ lit "</a>" ++ [10]%N ++
            senderLogin ++ lit " 推送到 " ++ branch ++ lit " 分支" ++ [10]%N ++
            lit "提交: " ++ excerpt /\
      ((exists a b, ref = a ++ lit "refs/heads/" ++ b /\ branch = a ++ b) \/
       ((forall a b, ref <> a ++ lit "refs/heads/" ++ b) /\ branch = ref)) /\
      (forall b, ref = lit "refs/heads/" ++ b -> branch = b).
Proof.
  intros data r msg Hr H Hne.
  unfold formatPushMessage in H. rewrite Hr in H. cbn [bind] in H.
  bind_inv H.
  destruct (negb (truthy _) || negb (truthy _)); [congruence |].
  bind_inv H.
  match goal with
  | Hc : call_replace r _ _ = Ok ?branch |- _ =>
      destruct r as [| | | | ref | |]; try discriminate Hc;
      unfold call_replace in Hc;
      assert (Hb : branch = replace (lit "refs/heads/") [] ref) by congruence;
      exists ref, branch
  end.
  do 4 eexists.
  split; [reflexivity |].
  split; [injection H as <-; reflexivity |].
  rewrite Hb. split.
  - exact (replace_occurrence (lit "refs/heads/") [] ref).
  - intros b ->. apply replace_prefix.
Qed.

End PayloadShapes.

Lemma payload_not_an_object_witness :
  formatPushMessage (@JNull engine) = Throw ErrType /\
  formatPushMessage (@JArr engine []) = Ok [].
Proof.
  split.
  - apply (proj1 (@payload_not_an_object engine JNull eq_refl) eq_refl).
  - apply (proj2 (@payload_not_an_object engine (JArr []) eq_refl) eq_refl).
Defined.

Lemma push_branch_witness :
  exists branch repoUrl repoName senderLogin excerpt,
    pushTemplate (lit "u") (lit "a/b") (lit "alice") (lit "feature/x") (lit "fix")
      = lit "<b>GitHub Push通知</b>" ++ [10; 10]%N ++
        lit "<a href=" ++ [34]%N ++ repoUrl ++ [34]%N ++ lit ">" ++
        repoName ++ lit "</a>" ++ [10]%N ++
        senderLogin ++ lit " 推送到 " ++ branch ++ lit " 分支" ++ [10]%N ++
        lit "提交: " ++ excerpt /\
    branch = lit "feature/x".
Proof.
  destruct (@push_branch engine
              (push_payload (lit "refs/heads/feature/x") (lit "fix"))
              (JStr (lit "refs/heads/feature/x"))
              (pushTemplate (lit "u") (lit "a/b") (lit "alice") (lit "feature/x")
                 (lit "fix"))
              eq_refl ltac:(vm_compute; reflexivity) ltac:(vm_compute; discriminate))
    as (ref & branch & u & n & s & e & Hr & Hmsg & _ & Hprefix).
  exists branch, u, n, s, e. split; [exact Hmsg |].
  apply Hprefix. injection Hr as <-. vm_compute. reflexivity.
Defined.

(** ** The bot-update handler: when it sends, and how it fails *)

Section BotUpdateFlow.
Context {E : Engine} {R : Runtime} {B : Bot}.
Import BotUpdate.

Lemma onRequest_update (env : Env) (request : Request)
    (data message chat_id : value) :
  method request = lit "POST" ->
  JSON_parse (body_text request) = Ok data ->
  readUpdate data = Ok (message, chat_id) ->
  onRequest env request =
    if negb (truthy chat_id) then (json 400 (JStr (lit "No chat_id found")), [])
    else if negb (truthy (of_option (token env))) then
      (json 500 (JStr (lit "Bot token not configured")), [])
    else if is_str message "/token" then sendToken env chat_id
    else (success, []).
Proof.
  intros Hm Hp Hr. unfold onRequest.
  rewrite Hm, jsstring_eqb_refl, Hp. cbn [negb bind]. now rewrite Hr.
Qed.

Lemma sendToken_sends (env : Env) (chat_id : value) :
  snd (sendToken env chat_id) = [] \/
  exists tok s,
    encryption env chat_id = Ok tok /\ ToString tok = Ok s /\
    snd (sendToken env chat_id)
      = [{| text := tokenText s; chat_id := chat_id; parse_mode := None |}].
Proof.
  unfold sendToken.
  destruct (encryption env chat_id) as [tok | e]; cbn [bind]; [| now left].
  destruct (ToString chat_id) as [c | e]; cbn [bind]; [| now left].
  destruct (ToString tok) as [s | e] eqn:Hs; [| now left].
  right. exists tok, s. split; [reflexivity |]. split; [exact Hs |].
  case_split; reflexivity.
Qed.

(** The handler sends at most one message, and only for an update whose
    text is exactly [/token], with a chat id and with the bot token
    configured: the message goes back to the chat the update came from,
    without a parse mode, and its text is the heading line, an empty
    line, the token that [bot.encryption] returned for that chat, an
    empty line and the closing line. *)
Theorem bot_update_send_discipline :
  forall (env : Env) (request : Request),
    snd (onRequest env request) = [] \/
    exists data chat_id tok s,
      method request = lit "POST" /\
      JSON_parse (body_text request) = Ok data /\
      readUpdate data = Ok (JStr (lit "/token"), chat_id) /\
      truthy chat_id = true /\
      truthy (of_option (token env)) = true /\
      encryption env chat_id = Ok tok /\
      ToString tok = Ok s /\
      snd (onRequest env request)
        = [{| text := lit "您的专属 Token:" ++ [10; 10]%N ++ s ++ [10; 10]%N ++
                      lit "请保存此 Token，用于发送消息通知。";
              chat_id := chat_id; parse_mode := None |}].
Proof.
  intros env request.
  destruct (jsstring_eqb (method request) (lit "POST")) eqn:Hm.
  2:{ left. unfold onRequest. now rewrite Hm. }
  apply jsstring_eqb_eq in Hm.
  destruct (JSON_parse (body_text request)) as [data | e] eqn:Hp.
  2:{ left. unfold onRequest. now rewrite Hm, jsstring_eqb_refl, Hp. }
  destruct (readUpdate data) as [[message chat_id] | e] eqn:Hr.
  2:{ left. unfold onRequest. rewrite Hm, jsstring_eqb_refl, Hp.
      cbn [negb bind]. now rewrite Hr. }
  rewrite (onRequest_update env request Hm Hp Hr).
  destruct (truthy chat_id) eqn:Hc; cbn [negb]; [| now left].
  destruct (truthy (of_option (token env))) eqn:Ht; cbn [negb]; [| now left].
  destruct (is_str message "/token") eqn:Hs; [| now left].
  apply is_str_eq in Hs. subst message.
  destruct (sendToken_sends env chat_id) as [Hn | (tok & s & He & Hts & Hsent)];
    [now left |].
  right. exists data, chat_id, tok, s.
  do 7 (split; [first [assumption | reflexivity] |]).
  rewrite Hsent. unfold tokenText, nl. cbn [app]. reflexivity.
Qed.

(** An update without a [message], or whose message has no [chat], is
    answered 400 whether or not the bot token is configured; an update
    with a chat id but no [text] counts as an empty text and is
    acknowledged with 200.  Nothing is sent in either case. *)
Theorem bot_update_partial_updates :
  forall (env : Env) (request : Request) (data m : value),
    method request = lit "POST" ->
    JSON_parse (body_text request) = Ok data ->
    get data "message" = Ok m ->
    (nullish m = true ->
       onRequest env request = (json 400 (JStr (lit "No chat_id found")), [])) /\
    (forall chat,
       nullish m = false -> get m "chat" = Ok chat -> nullish chat = true ->
       onRequest env request = (json 400 (JStr (lit "No chat_id found")), [])) /\
    (forall t chat chat_id,
       get m "text" = Ok t -> nullish t = true ->
       get m "chat" = Ok chat -> get chat "id" = Ok chat_id ->
       truthy chat_id = true ->
       truthy (of_option (token env)) = true ->
       onRequest env request = (success, [])).
Proof.
  intros env request data m Hm Hp Hg. repeat split.
  - intros Hn.
    rewrite (onRequest_update env request (message := JStr [])
               (chat_id := JUndefined) Hm Hp); [reflexivity |].
    unfold readUpdate, get_opt. rewrite Hg. cbn [bind]. now rewrite Hn.
  - intros chat Hn Hc Hcn.
    destruct (get_not_nullish m "text" Hn) as [t Ht].
    rewrite (onRequest_update env request
               (message := if nullish t then JStr [] else t)
               (chat_id := JUndefined) Hm Hp); [reflexivity |].
    unfold readUpdate, get_opt. rewrite Hg. cbn [bind].
    rewrite Hn, Ht. cbn [bind]. rewrite Hc. cbn [bind]. now rewrite Hcn.
  - intros t chat chat_id Ht Hn Hc Hi Hv Htok.
    assert (Hm' : nullish m = false).
    { destruct m; simpl in *; congruence. }
    assert (Hc' : nullish chat = false).
    { destruct chat; simpl in *; congruence. }
    rewrite (onRequest_update env request (message := JStr [])
               (chat_id := chat_id) Hm Hp).
    + now rewrite Hv, Htok.
    + unfold readUpdate, get_opt. rewrite Hg. cbn [bind].
      rewrite Hm', Ht. cbn [bind]. rewrite Hn, Hc. cbn [bind].
      rewrite Hc', Hi. reflexivity.
Qed.

End BotUpdateFlow.

Lemma bot_update_partial_updates_witness :
  @BotUpdate.onRequest engine runtime bot_accepted env_plain (post_update body_empty)
    = (json 400 (JStr (lit "No chat_id found")), []).
Proof.
  apply (proj1 (@bot_update_partial_updates engine runtime bot_accepted env_plain
                  (post_update body_empty) (JObj []) JUndefined
                  eq_refl eq_refl eq_refl)).
  reflexivity.
Defined.

Section BotUpdateFailures.
Context {E : Engine} {R : Runtime} {B : Bot}.
Import BotUpdate.

(** Failures are answered 500 and say what failed: a body that cannot be
    read gives [Server error: ] and the exception's message; for [/token],
    an exception while generating or sending the token gives [Error: ] and
    its message, and a refusal by the chat platform gives
    [Failed to send message: ] and the platform's description.  A message
    is counted as sent once the send was attempted. *)
Theorem bot_update_failures :
  forall (env : Env) (request : Request),
    method request = lit "POST" ->
    (forall e,
        (data <- JSON_parse (body_text request) ;; readUpdate data) = Throw e ->
        onRequest env request
          = (json 500 (JStr (lit "Server error: " ++ exn_message e)), [])) /\
    (forall data chat_id,
        JSON_parse (body_text request) = Ok data ->
        readUpdate data = Ok (JStr (lit "/token"), chat_id) ->
        truthy chat_id = true ->
        truthy (of_option (token env)) = true ->
        (forall e,
            encryption env chat_id = Throw e ->
            onRequest env request
              = (json 500 (JStr (lit "Error: " ++ exn_message e)), [])) /\
        (forall tok c s,
            encryption env chat_id = Ok tok ->
            ToString chat_id = Ok c ->
            ToString tok = Ok s ->
            let args := {| text := tokenText s; chat_id := chat_id;
                           parse_mode := None |} in
            (forall e,
                sendMessage env args = Throw e ->
                onRequest env request
                  = (json 500 (JStr (lit "Error: " ++ exn_message e)), [args])) /\
            (forall ret ok d sd,
                sendMessage env args = Ok ret ->
                get ret "ok" = Ok ok -> truthy ok = false ->
                get ret "description" = Ok d -> ToString d = Ok sd ->
                onRequest env request
                  = (json 500 (JStr (lit "Failed to send message: " ++ sd)),
                     [args])))).
Proof.
  intros env request Hm. split.
  - intros e He. unfold onRequest. now rewrite Hm, jsstring_eqb_refl, He.
  - intros data chat_id Hp Hr Hc Ht.
    assert (Hrun : onRequest env request = sendToken env chat_id).
    { rewrite (onRequest_update env request Hm Hp Hr), Hc, Ht.
      cbn [negb]. now rewrite is_str_lit. }
    rewrite Hrun. unfold sendToken. split.
    + intros e He. now rewrite He.
    + intros tok c s He Hcs Hts. cbv zeta.
      rewrite He. cbn [bind]. rewrite Hcs. cbn [bind]. rewrite Hts.
      split.
      * intros e Hs. now rewrite Hs.
      * intros ret ok d sd Hs Hok Hv Hd Hsd.
        rewrite Hs, Hok, Hv. cbn [negb]. rewrite Hd. cbn [bind].
        now rewrite Hsd.
Qed.

End BotUpdateFailures.

Lemma bot_update_failures_witness :
  @BotUpdate.onRequest engine runtime bot_accepted env_plain
     (post_update (lit "not json"))
    = (json 500 (JStr (lit "Server error: Unexpected token")), []).
Proof.
  apply (proj1 (@bot_update_failures engine runtime bot_accepted env_plain
                  (post_update (lit "not json")) eq_refl) ErrSyntax).
  vm_compute. reflexivity.
Defined.

(** ** The register and status endpoints *)

Section IncludesFacts.
Import Admin.

Lemma includes_unfold (pat s : jsstring) :
  includes pat s =
  starts_with pat s ||
  match s with
  | [] => false
  | _ :: s' => includes pat s'
  end.
Proof. destruct s; reflexivity. Qed.

Lemma includes_app (pat a b : jsstring) : includes pat (a ++ pat ++ b) = true.
Proof.
  induction a as [| c a IH]; rewrite includes_unfold.
  - simpl. now rewrite starts_with_app.
  - simpl. rewrite IH. apply orb_true_r.
Qed.

(** [includes] is the substring test. *)
Lemma includes_spec (pat s : jsstring) :
  includes pat s = true <-> exists a b, s = a ++ pat ++ b.
Proof.
  split.
  - induction s as [| c s IH]; rewrite includes_unfold; intros H.
    + rewrite orb_false_r in H. apply starts_with_inv in H.
      exists [], (skipn (List.length pat) []). exact H.
    + apply orb_prop in H as [H | H].
      * apply starts_with_inv in H.
        exists [], (skipn (List.length pat) (c :: s)). exact H.
      * destruct (IH H) as (a & b & ->). now exists (c :: a), b.
  - intros (a & b & ->). apply includes_app.
Qed.

End IncludesFacts.

Section RegisterFacts.
Context {E : Engine} {A : Admin.BotApi}.
Import Admin Admin.Register.

Lemma key_matches_spec (env : AdminEnv) (req : UrlRequest) :
  key_matches env req = true <->
  exists k, query_key req = Some k /\ key env = Some k.
Proof.
  unfold key_matches.
  destruct (query_key req) as [k |], (key env) as [k' |]; split;
    try discriminate; try (intros (k0 & H1 & H2); discriminate).
  - intros H. apply jsstring_eqb_eq in H. subst. eauto.
  - intros (k0 & H1 & H2). apply jsstring_eqb_eq. congruence.
Qed.

(** The webhook is registered only for a request whose [key] parameter is
    present and equal to the configured [env.key]: otherwise the answer is
    401 and [bot.setWebHook] is not called.  With [env.key] not
    configured, or without a [key] parameter, every request is refused. *)
Theorem register_requires_key :
  forall (env : AdminEnv) (req : UrlRequest),
    ((exists k, query_key req = Some k /\ key env = Some k) \/
     onRequest env req = (Ok (json 401 (JStr (lit "unauthorized"))), [])) /\
    (snd (onRequest env req) <> [] ->
       exists k, query_key req = Some k /\ key env = Some k) /\
    (key env = None \/ query_key req = None ->
       onRequest env req = (Ok (json 401 (JStr (lit "unauthorized"))), [])).
Proof.
  intros env req.
  assert (Hcases : (exists k, query_key req = Some k /\ key env = Some k) \/
                   onRequest env req
                     = (Ok (json 401 (JStr (lit "unauthorized"))), [])).
  { destruct (key_matches env req) eqn:Hk.
    - left. now apply key_matches_spec.
    - right. unfold onRequest. now rewrite Hk. }
  split; [exact Hcases |]. split.
  - intros Hs. destruct Hcases as [H | H]; [exact H |].
    rewrite H in Hs. now contradiction Hs.
  - intros Hnone. destruct Hcases as [(k & H1 & H2) | H]; [| exact H].
    destruct Hnone; congruence.
Qed.

(** For an authorized request, the URL handed to [bot.setWebHook], once,
    is the [url] parameter when it is present and not empty; otherwise
    it is [https://] followed by the host name and a path, which is
    [/api/webhook] when the host name contains [vercel.app] or
    [vercel.com] and [/webhook] when it contains neither. *)
Theorem register_url_choice :
  forall (env : AdminEnv) (req : UrlRequest) (k : jsstring),
    query_key req = Some k -> key env = Some k ->
    snd (onRequest env req) = [webhookUrl req] /\
    (forall u, query_url req = Some u -> u <> [] -> webhookUrl req = u) /\
    (query_url req = None \/ query_url req = Some [] ->
       let vercel :=
         (exists a b, hostname req = a ++ lit "vercel.app" ++ b) \/
         (exists a b, hostname req = a ++ lit "vercel.com" ++ b) in
       (vercel ->
          webhookUrl req = lit "https://" ++ hostname req ++ lit "/api/webhook") /\
       (~ vercel ->
          webhookUrl req = lit "https://" ++ hostname req ++ lit "/webhook")).
Proof.
  intros env req k Hq Hk.
  assert (Hm : key_matches env req = true) by (apply key_matches_spec; eauto).
  split; [| split].
  - unfold onRequest. rewrite Hm. cbn [negb]. case_split; reflexivity.
  - intros u Hu Hne. unfold webhookUrl. rewrite Hu.
    destruct u; [congruence | reflexivity].
  - intros Hnone vercel.
    assert (Hdef : webhookUrl req
                   = lit "https://" ++ hostname req ++ webhookPath (hostname req)).
    { unfold webhookUrl. destruct Hnone as [-> | ->]; reflexivity. }
    rewrite Hdef. unfold webhookPath, isVercel. split.
    + intros [Hv | Hv]; apply includes_spec in Hv; rewrite Hv;
        [reflexivity | now rewrite orb_true_r].
    + intros Hnot.
      destruct (includes (lit "vercel.app") (hostname req)) eqn:H1.
      { contradiction Hnot. left. now apply includes_spec. }
      destruct (includes (lit "vercel.com") (hostname req)) eqn:H2.
      { contradiction Hnot. right. now apply includes_spec. }
      reflexivity.
Qed.

(** What [bot.setWebHook] answers decides the response of an authorized
    request: [ok] truthy gives 200 and names the registered URL, [ok]
    falsy gives 422 with the platform's [description]; an exception of
    [bot.setWebHook], or an answer that is [undefined] or [null], is not
    caught and leaves the handler. *)
Theorem register_result :
  forall (env : AdminEnv) (req : UrlRequest) (k : jsstring),
    query_key req = Some k -> key env = Some k ->
    let url := webhookUrl req in
    (forall ret ok,
        setWebHook env url = Ok ret -> get ret "ok" = Ok ok -> truthy ok = true ->
        fst (onRequest env req)
          = Ok (json 200 (JStr (lit "Webhook set to " ++ url)))) /\
    (forall ret ok description,
        setWebHook env url = Ok ret -> get ret "ok" = Ok ok -> truthy ok = false ->
        get ret "description" = Ok description ->
        fst (onRequest env req) = Ok (json 422 description)) /\
    (forall e,
        setWebHook env url = Throw e -> fst (onRequest env req) = Throw e) /\
    (forall ret,
        setWebHook env url = Ok ret -> nullish ret = true ->
        fst (onRequest env req) = Throw TypeError).
Proof.
  intros env req k Hq Hk url.
  assert (Hm : key_matches env req = true) by (apply key_matches_spec; eauto).
  unfold onRequest. rewrite Hm. cbn [negb]. fold url. repeat split.
  - intros ret ok Hs Hok Hv. now rewrite Hs, Hok, Hv.
  - intros ret ok d Hs Hok Hv Hd. now rewrite Hs, Hok, Hv, Hd.
  - intros e Hs. now rewrite Hs.
  - intros ret Hs Hn. rewrite Hs. destruct ret; try discriminate; reflexivity.
Qed.

End RegisterFacts.

Lemma register_requires_key_witness :
  @Admin.Register.onRequest engine api_up (admin_env None)
     (url_request "GET" "relay.example" None None)
    = (Ok (json 401 (JStr (lit "unauthorized"))), []).
Proof.
  apply (proj2 (proj2 (@register_requires_key engine api_up (admin_env None)
                         (url_request "GET" "relay.example" None None)))).
  left. reflexivity.
Defined.

Lemma register_url_choice_witness :
  @Admin.Register.webhookUrl engine
     (url_request "GET" "relay.vercel.app" (Some (lit "k")) None)
    = lit "https://relay.vercel.app/api/webhook" /\
  @Admin.Register.webhookUrl engine
     (url_request "GET" "relay.example" (Some (lit "k")) None)
    = lit "https://relay.example/webhook".
Proof.
  split.
  - destruct (@register_url_choice engine api_up (admin_env (Some (lit "k")))
                (url_request "GET" "relay.vercel.app" (Some (lit "k")) None)
                (lit "k") eq_refl eq_refl) as (_ & _ & Hdef).
    destruct (Hdef (or_introl eq_refl)) as [Hv _].
    rewrite Hv; [vm_compute; reflexivity |].
    left. exists (lit "relay."), []. vm_compute. reflexivity.
  - destruct (@register_url_choice engine api_up (admin_env (Some (lit "k")))
                (url_request "GET" "relay.example" (Some (lit "k")) None)
                (lit "k") eq_refl eq_refl) as (_ & _ & Hdef).
    destruct (Hdef (or_introl eq_refl)) as [_ Hn].
    rewrite Hn; [vm_compute; reflexivity |].
    intros [Hv | Hv]; apply includes_spec in Hv; vm_compute in Hv;
      discriminate.
Defined.

Lemma register_result_witness :
  fst (@Admin.Register.onRequest engine api_down (admin_env (Some (lit "k")))
         (url_request "GET" "relay.example" (Some (lit "k")) None))
    = Ok (json 422 (JStr (lit "Unauthorized"))).
Proof.
  pose proof (@register_result engine api_down (admin_env (Some (lit "k")))
                (url_request "GET" "relay.example" (Some (lit "k")) None)
                (lit "k") eq_refl eq_refl) as H.
  cbv zeta in H. destruct H as (_ & H422 & _).
  eapply H422; vm_compute; reflexivity.
Defined.

Section StatusFacts.
Context {E : Engine} {A : Admin.BotApi} {C : Admin.Clock}.
Import Admin Admin.Status.

(** A request that is not a GET is answered 405 without calling the Bot
    API.  A GET is always answered 200, after one call of
    [getWebhookInfo]: the report tells for each of [token], [sign_key]
    and [key] whether it is set and not empty, and carries the webhook
    info, or [null] when the call threw. *)
Theorem status_report :
  forall (env : AdminEnv) (req : UrlRequest),
    (method (base req) <> lit "GET" ->
       onRequest env req = (Plain 405 (lit "Please use GET method"), [])) /\
    (method (base req) = lit "GET" ->
       exists r,
         onRequest env req = (Pretty 200 r, [lit "getWebhookInfo"]) /\
         (environment_token r = true <->
            exists s, token (vars env) = Some s /\ s <> []) /\
         (environment_sign_key r = true <->
            exists s, sign_key (vars env) = Some s /\ s <> []) /\
         (environment_key r = true <-> exists s, key env = Some s /\ s <> []) /\
         report_hostname r = hostname req /\
         (forall info,
             request env (lit "getWebhookInfo") (JObj []) = Ok info ->
             webhookInfo r = info) /\
         (forall e,
             request env (lit "getWebhookInfo") (JObj []) = Throw e ->
             webhookInfo r = JNull)).
Proof.
  intros env req. split.
  - intros Hm. unfold onRequest. apply jsstring_eqb_neq in Hm. now rewrite Hm.
  - intros Hm. unfold onRequest. rewrite Hm, jsstring_eqb_refl. cbn [negb].
    eexists. split; [reflexivity |]. cbn [environment_token environment_sign_key
      environment_key report_hostname webhookInfo].
    repeat split; try apply truthy_of_option.
    + intros info ->. reflexivity.
    + intros e ->. reflexivity.
Qed.

(** The webhook URL that the status endpoint reports always ends in
    [/api/webhook]; it is the URL that the register endpoint registers by
    default exactly when the host name contains [vercel.app] or
    [vercel.com].  On any other host the two differ. *)
Theorem status_url_vs_register_default :
  forall (env : AdminEnv) (req : UrlRequest) (r : report) (calls : list jsstring),
    onRequest env req = (Pretty 200 r, calls) ->
    query_url req = None ->
    let vercel :=
      (exists a b, hostname req = a ++ lit "vercel.app" ++ b) \/
      (exists a b, hostname req = a ++ lit "vercel.com" ++ b) in
    webhookUrl r = lit "https://" ++ hostname req ++ lit "/api/webhook" /\
    (webhookUrl r = Register.webhookUrl req <-> vercel) /\
    (~ vercel ->
       Register.webhookUrl req = lit "https://" ++ hostname req ++ lit "/webhook").
Proof.
  intros env req r calls Hrun Hq vercel. subst vercel.
  assert (Hr : webhookUrl r = lit "https://" ++ hostname req ++ lit "/api/webhook").
  { unfold onRequest in Hrun.
    destruct (negb (jsstring_eqb (method (base req)) (lit "GET")));
      [discriminate |].
    injection Hrun as <- _. reflexivity. }
  split; [exact Hr |].
  rewrite Hr. unfold Register.webhookUrl, Register.webhookPath, Register.isVercel.
  rewrite Hq. cbn [of_option truthy].
  destruct (includes (lit "vercel.app") (hostname req)) eqn:H1; cbn [orb].
  { assert (Hv : exists a b, hostname req = a ++ lit "vercel.app" ++ b)
      by now apply includes_spec.
    split; [split; [auto | reflexivity] |]. intros Hn. contradiction Hn. auto. }
  destruct (includes (lit "vercel.com") (hostname req)) eqn:H2.
  { assert (Hv : exists a b, hostname req = a ++ lit "vercel.com" ++ b)
      by now apply includes_spec.
    split; [split; [auto | reflexivity] |]. intros Hn. contradiction Hn. auto. }
  split; [split |].
  - intros Heq. apply app_inv_head in Heq. apply app_inv_head in Heq.
    vm_compute in Heq. discriminate.
  - intros [Hv | Hv]; apply includes_spec in Hv; congruence.
  - intros _. reflexivity.
Qed.

End StatusFacts.

Lemma status_report_witness :
  exists r,
    @Admin.Status.onRequest engine api_down clock (admin_env None)
       (url_request "GET" "relay.example" None None)
      = (Admin.Status.Pretty 200 r, [lit "getWebhookInfo"]) /\
    Admin.Status.webhookInfo r = JNull /\
    Admin.Status.environment_token r = true.
Proof.
  destruct (proj2 (@status_report engine api_down clock (admin_env None)
                     (url_request "GET" "relay.example" None None)) eq_refl)
    as (r & Hrun & Htok & _ & _ & _ & _ & Hnull).
  exists r. split; [exact Hrun |]. split.
  - apply (Hnull ErrType). reflexivity.
  - apply Htok. eexists. split; [reflexivity |]. vm_compute. discriminate.
Defined.

Lemma status_url_vs_register_default_witness :
  lit "https://relay.example/api/webhook"
    <> @Admin.Register.webhookUrl engine (url_request "GET" "relay.example" None None).
Proof.
  pose proof (@status_url_vs_register_default engine api_up clock (admin_env None)
                (url_request "GET" "relay.example" None None) _ _
                eq_refl eq_refl) as (_ & [Hto _] & _).
  intros Heq.
  destruct (Hto Heq) as [Hv | Hv]; apply includes_spec in Hv;
    vm_compute in Hv; discriminate.
Defined.

(** ** The signature step of the webhook handler *)

Section SignatureStep.
Context {E : Engine} {R : Runtime} {B : Bot}.
Import GithubWebhook.






End SignatureStep.

Section SignatureGate.
Context {E : Engine} {R : Runtime} {B : Bot}.
Import GithubWebhook.



End SignatureGate.


